(** * HASHnSIGN: the manifest / sign / publish / verify pipeline of src/main.cpp

    A shallow embedding of the non-GUI logic of [src/main.cpp]:
    [run_command_capture], [generate_hashes_md5], [sign_hashes],
    [git_add_commit_push], [verify_signature], [verify_md5sum] and the
    repository detection and the two button handlers of [main].

    The host (file system and external programs md5sum, gpg, git reached
    through popen) is an interface, [Host]; every function of the program
    is a state transformer over a host world, instrumented with a trace
    of the commands it launches and of the stages the button handlers
    ran. *)

From Stdlib Require Import String Ascii List ZArith Bool Lia.
From Stdlib Require Import DecimalString.
Import ListNotations.
Local Open Scope string_scope.
Local Open Scope Z_scope.

Set Implicit Arguments.

(** ** Strings, as std::string is used by the program *)

Module Str.

(** [s.rfind(t, 0) == 0]: the only position examined is 0, so the test
    says that [s] starts with [t]. *)
Definition starts_with (t s : string) : bool := String.prefix t s.

(** [s.find(t) != std::string::npos]. *)
Fixpoint contains (t s : string) : bool :=
  if String.prefix t s then true
  else match s with
       | EmptyString => false
       | String _ s' => contains t s'
       end.

(** [std::isspace] in the "C" locale. *)
Definition isspace (c : ascii) : bool :=
  let n := nat_of_ascii c in
  (Nat.eqb n 32 || (Nat.leb 9 n && Nat.leb n 13))%bool.

Fixpoint skip_space (s : string) : string :=
  match s with
  | String c s' => if isspace c then skip_space s' else s
  | EmptyString => EmptyString
  end.

Fixpoint take_word (s : string) : string :=
  match s with
  | String c s' => if isspace c then EmptyString else String c (take_word s')
  | EmptyString => EmptyString
  end.

(** [iss >> tok] on a fresh [std::istringstream iss(s)]: leading white
    space is skipped, then characters are taken up to the next white
    space; the extraction fails when no character is left. *)
Definition first_token (s : string) : option string :=
  match take_word (skip_space s) with
  | EmptyString => None
  | w => Some w
  end.

Fixpoint last_char (s : string) : option ascii :=
  match s with
  | EmptyString => None
  | String c EmptyString => Some c
  | String _ s' => last_char s'
  end.

(** [std::to_string(int)]. *)
Definition to_string (z : Z) : string := NilZero.string_of_int (Z.to_int z).

End Str.

(** ** Paths, as std::filesystem::path is used by the program

    Paths are kept as their [string()] form.  [p / q], for the relative
    [q]s the program appends, puts a separator between [p] and [q] unless
    [p] is empty or already ends with one. *)

Definition path_append (p q : string) : string :=
  match Str.last_char p with
  | None => q
  | Some c => if Ascii.eqb c "/" then p ++ q else p ++ "/" ++ q
  end.

Notation "p // q" := (path_append p q) (at level 40, left associativity).

(** What the program asks of a [fs::directory_entry]; both questions
    are taken to be answered, the entry being one the iterator has just
    read. *)
Record DirEntry : Type := mkDirEntry {
  path : string;
  is_regular_file : bool;
  is_directory : bool
}.

(** ** The host *)

Class Host (World : Type) : Type := {
  (** [popen(cmd, "r")], reading the pipe to its end, [pclose]: [None]
      when popen returns no pipe, else the text read and the status. *)
  popen : string -> World -> option (string * Z) * World;
  (** [std::ofstream(p, std::ios::trunc)]: [None] when the stream is not
      open, else the world in which [p] is an empty file. *)
  ofstream_trunc : string -> World -> option World;
  (** The file [p] once the stream on it, through which [text] was
      written, is closed. *)
  ofstream_close : string -> string -> World -> World;
  (** The bytes of a file. *)
  file_contents : string -> World -> option string;
  (** What [fs::exists(p)] answers when it answers. *)
  fs_exists : string -> World -> bool;
  (** [fs::exists(p)] throws [filesystem_error]: the status of [p]
      cannot be read, a directory on the way to it may not be searched.
      The program asks for [<dir>/.git] of directories it knows nothing
      of (main.cpp:268); the directories it keeps are those for which
      the question was answered, and of these alone it later asks for
      the manifest and the signature (main.cpp:104, 156, 181), where
      the question is taken to be answered as well. *)
  fs_exists_error : string -> World -> bool;
  (** [fs::relative(p, base).string()]. *)
  fs_relative : string -> string -> string;
  (** The entries a [fs::recursive_directory_iterator] yields, in order,
      and whether the traversal then throws [filesystem_error] (at once
      when the directory cannot be opened, later when a directory below
      cannot be read) instead of reaching its end. *)
  recursive_directory_iterator : string -> World -> list DirEntry * bool;
  (** The same for a [fs::directory_iterator]: no entry and [true] when
      the directory is missing or cannot be listed. *)
  directory_iterator : string -> World -> list DirEntry * bool;
  (** A closed stream leaves what was written through it. *)
  file_contents_close : forall p text w,
    file_contents p (ofstream_close p text w) = Some text
}.

(** ** Instrumented state *)

Inductive Stage : Type :=
| Generate | Sign | Publish | VerifySignature | VerifyIntegrity.

Inductive Event : Type :=
| Exec (cmd : string)                          (* a command handed to popen *)
| Ran (s : Stage) (repo : string) (ok : bool)  (* a stage returned [ok] *).

Record State (World : Type) : Type := mkState {
  world : World;
  trace : list Event
}.

Definition is_ran (e : Event) : bool :=
  match e with Ran _ _ _ => true | Exec _ => false end.

(** The stages of a trace, its commands left out. *)
Definition stages (tr : list Event) : list Event := filter is_ran tr.

(** A small state monad; the value comes first. *)
Definition M (World A : Type) : Type := State World -> A * State World.

Definition ret {World A : Type} (a : A) : M World A := fun st => (a, st).

Definition bind {World A B : Type} (c : M World A) (k : A -> M World B)
  : M World B :=
  fun st => let (a, st') := c st in k a st'.

Declare Scope pipeline_scope.
Delimit Scope pipeline_scope with pipeline.
Notation "x <- c ;; k" := (bind c (fun x => k))
  (at level 61, c at next level, right associativity) : pipeline_scope.
Notation "' pat <- c ;; k" := (bind c (fun x => match x with pat => k end))
  (at level 61, pat pattern, c at next level, right associativity)
  : pipeline_scope.
Notation "c ;; k" := (bind c (fun _ => k))
  (at level 61, right associativity) : pipeline_scope.
Local Open Scope pipeline_scope.

(** One entry of the manifest: the line [<hash>  <relative_path>]. *)
Record ManifestEntry : Type := mkEntry {
  content_hash : string;
  relative_path : string
}.

(** The line feed. *)
Definition nl : string := String "010" "".

Definition entry_line (e : ManifestEntry) : string :=
  content_hash e ++ "  " ++ relative_path e ++ nl.

Definition manifest_text (es : list ManifestEntry) : string :=
  String.concat "" (map entry_line es).

Section Program.

Context {World : Type} {host : Host World}.

Abbreviation Run := (M World).

Definition record (e : Event) : Run unit :=
  fun st => (tt, {| world := world st; trace := trace st ++ [e] |}).

Definition lift {A : Type} (f : World -> A * World) : Run A :=
  fun st => let (a, w) := f (world st) in
            (a, {| world := w; trace := trace st |}).

Definition observe {A : Type} (f : World -> A) : Run A :=
  fun st => (f (world st), st).

(** [run_command_capture] (main.cpp:27-48). *)
Definition run_command_capture (cmd : string) : Run (Z * string) :=
  record (Exec cmd) ;;
  r <- lift (popen (cmd ++ " 2>&1")) ;;
  match r with
  | None => ret (-1, "popen failed")
  | Some (result, rc) => ret (rc, result)
  end.

(** The double quote the program puts around the paths of a command. *)
Definition dquote : string := String "034" "".

Definition quoted (s : string) : string := dquote ++ s ++ dquote.

(** *** [generate_hashes_md5] (main.cpp:51-98) *)

Definition md5sum_command (p : string) : string := "md5sum " ++ quoted p.

(** The loop of main.cpp:60-94 over the entries the iterator yields.
    [ofs] is what has been written to the stream so far, one entry per
    [ofs << hash << "  " << relpath << "\n"].  The result is [false] when
    the loop was left by [return false], with the stream as it was then.
    (Lines 83-89 compute [fullpath], which nothing reads.) *)
Fixpoint hash_loop (repo : string) (ps : list DirEntry)
    (ofs : list ManifestEntry) (out_log : string)
  : Run (bool * list ManifestEntry * string) :=
  match ps with
  | [] => ret (true, ofs, out_log)
  | p :: ps' =>
    if negb (is_regular_file p) then hash_loop repo ps' ofs out_log else
    let srel := fs_relative (path p) repo in
    if Str.starts_with ".git" srel then hash_loop repo ps' ofs out_log else
    if ((srel =? "hashes.md5") || (srel =? "hashes.md5.asc"))%string
    then hash_loop repo ps' ofs out_log else
    '(rc, out) <- run_command_capture (md5sum_command (path p)) ;;
    if negb (rc =? 0) then
      ret (false, ofs,
           out_log ++ "md5sum fallo para " ++ path p ++ " :" ++ nl ++ out ++ nl)
    else
      match Str.first_token out with
      | None => hash_loop repo ps' ofs out_log
      | Some hash =>
        let relpath := "./" ++ srel in
        hash_loop repo ps' (ofs ++ [mkEntry hash relpath]) out_log
      end
  end.

(** [None] is the function left by the exception of the traversal,
    which nothing in it catches; the stream is then not closed by the
    function, and what its file holds is not known. *)
Definition generate_hashes_md5 (repo out_log : string)
  : Run (option (bool * string)) :=
  let hashes_path := repo // "hashes.md5" in
  fun st =>
  match ofstream_trunc hashes_path (world st) with
  | None =>
    (Some (false,
           out_log ++ "Error: no se puede crear " ++ hashes_path ++ nl), st)
  | Some w =>
    ('(ps, throws) <- observe (recursive_directory_iterator repo) ;;
     '(ok, ofs, out_log) <- hash_loop repo ps [] out_log ;;
     if ok : bool then
       if throws : bool then ret None
       else
         lift (fun w =>
                 (tt, ofstream_close hashes_path (manifest_text ofs) w)) ;;
         ret (Some (true, out_log ++ "Generado: " ++ hashes_path ++ nl))
     else
       lift (fun w =>
               (tt, ofstream_close hashes_path (manifest_text ofs) w)) ;;
       ret (Some (false, out_log)))
      {| world := w; trace := trace st |}
  end.

(** *** [sign_hashes] (main.cpp:101-122) *)

Definition sign_command (repo gpg_key : string) : string :=
  let hashes := repo // "hashes.md5" in
  let asc := repo // "hashes.md5.asc" in
  if negb (gpg_key =? "")%string then
    "gpg --default-key " ++ gpg_key ++ " --armor --output " ++ quoted asc
      ++ " --sign " ++ quoted hashes
  else
    "gpg --armor --output " ++ quoted asc ++ " --sign " ++ quoted hashes.

Definition sign_hashes (repo gpg_key out_log : string) : Run (bool * string) :=
  let hashes := repo // "hashes.md5" in
  let asc := repo // "hashes.md5.asc" in
  present <- observe (fs_exists hashes) ;;
  if negb present then ret (false, out_log ++ "No existe " ++ hashes ++ nl)
  else
    '(rc, out) <- run_command_capture (sign_command repo gpg_key) ;;
    let out_log := out_log ++ out in
    if negb (rc =? 0) then
      ret (false,
           out_log ++ "gpg sign failed (rc=" ++ Str.to_string rc ++ ")" ++ nl)
    else ret (true, out_log ++ "Firmado: " ++ asc ++ nl).

(** *** [git_add_commit_push] (main.cpp:125-151) *)

Definition in_repo (repo c : string) : string :=
  "cd " ++ quoted repo ++ " && " ++ c.

(** The lambda [run] of main.cpp:126-134. *)
Definition git_run (repo c out_log : string) : Run (bool * string) :=
  '(rc, out) <- run_command_capture (in_repo repo c) ;;
  let out_log := out_log ++ out in
  if negb (rc =? 0) then
    ret (false, out_log ++ "Comando git fallo: " ++ c ++ nl)
  else ret (true, out_log).

Definition git_add : string := "git add hashes.md5 hashes.md5.asc".
Definition git_status : string := "git status --porcelain".
Definition git_commit : string :=
  "git commit -m " ++ quoted "añadiendo fichero de hashes firmado".
Definition git_push : string := "git push".

Definition git_add_commit_push (repo out_log : string) : Run (bool * string) :=
  '(ok, out_log) <- git_run repo git_add out_log ;;
  if negb ok then ret (false, out_log) else
  '(rcStatus, statusOut) <- run_command_capture (in_repo repo git_status) ;;
  if negb (rcStatus =? 0) then ret (false, out_log ++ statusOut) else
  if (statusOut =? "")%string then
    ret (true, out_log ++ "No hay cambios para commitear en " ++ repo ++ nl)
  else
  '(ok, out_log) <- git_run repo git_commit out_log ;;
  if negb ok then ret (false, out_log) else
  '(ok, out_log) <- git_run repo git_push out_log ;;
  if negb ok then ret (false, out_log) else
  ret (true, out_log ++ "Push OK para " ++ repo ++ nl).

(** *** [verify_signature] (main.cpp:153-177) *)

Definition verify_command (repo gpg_key : string) : string :=
  let asc := repo // "hashes.md5.asc" in
  let hashes := repo // "hashes.md5" in
  if negb (gpg_key =? "")%string then
    "gpg --verify --keyid-format LONG " ++ quoted asc ++ " " ++ quoted hashes
  else "gpg --verify " ++ quoted asc ++ " " ++ quoted hashes.

Definition verify_signature (repo gpg_key out_log : string)
  : Run (bool * string) :=
  let asc := repo // "hashes.md5.asc" in
  let hashes := repo // "hashes.md5" in
  present <- observe (fun w => fs_exists asc w && fs_exists hashes w) ;;
  if negb present then
    ret (false,
         out_log ++ "Faltan archivos de firma o hashes en " ++ repo ++ nl)
  else
    '(rc, out) <- run_command_capture (verify_command repo gpg_key) ;;
    let out_log := out_log ++ out in
    if negb (rc =? 0) then
      ret (false,
           out_log ++ "gpg verify returned rc=" ++ Str.to_string rc ++ nl)
    else
      let good := Str.contains "Good signature" out in
      if good then ret (good, out_log ++ "Firma válida en " ++ repo ++ nl)
      else ret (good, out_log ++ "Firma NO válida o no verificable en "
                        ++ repo ++ nl).

(** *** [verify_md5sum] (main.cpp:179-195) *)

Definition verify_md5sum (repo out_log : string) : Run (bool * string) :=
  let hashes := repo // "hashes.md5" in
  present <- observe (fs_exists hashes) ;;
  if negb present then ret (false, out_log ++ "No existe " ++ hashes ++ nl)
  else
    '(rc, out) <- run_command_capture (in_repo repo "md5sum -c hashes.md5") ;;
    let out_log := out_log ++ out in
    if rc =? 0 then ret (true, out_log ++ "Integridad OK en " ++ repo ++ nl)
    else ret (false, out_log ++ "Integridad FALLIDA (rc=" ++ Str.to_string rc
                       ++ ") en " ++ repo ++ nl).

(** *** [main]: one pass of the window loop (main.cpp:241-341)

    Of the GUI only what reaches the pipeline is kept: the two text
    fields, which of the two buttons were pressed, the list of detected
    repositories drawn, and [log_text]. *)

(** The loop of main.cpp:266-270 over the entries the iterator yields,
    [repos] being what was pushed so far.  An exception of [fs::exists]
    leaves the loop for the [catch] of main.cpp:271, which ignores it:
    [repos] stays as it is then. *)
Fixpoint scan_repos (w : World) (ps : list DirEntry) (repos : list string)
  : list string :=
  match ps with
  | [] => repos
  | p :: ps' =>
    if is_directory p then
      if fs_exists_error (path p // ".git") w then repos
      else if fs_exists (path p // ".git") w
           then scan_repos w ps' (repos ++ [path p])
           else scan_repos w ps' repos
    else scan_repos w ps' repos
  end.

(** Repository detection (main.cpp:263-273).  [repos] is cleared, then
    filled by the loop; an exception of the iterator itself ends the
    loop like its last entry does, the [catch] ignoring it too. *)
Definition detect_repos (root : string) : Run (list string) :=
  observe (fun w => scan_repos w (fst (directory_iterator root w)) []).

Inductive Widget : Type :=
| BulletText (s : string)
| TextDisabled (s : string).

(** main.cpp:275-278. *)
Definition draw_repos (repos : list string) : list Widget :=
  map BulletText repos ++
  match repos with
  | [] => [TextDisabled
             "No se encontraron repositorios (carpetas con .git) en la ruta."]
  | _ => []
  end.

(** A stage called from a button handler; its result is put on the
    trace. *)
Definition staged (s : Stage) (repo : string) (c : Run (bool * string))
  : Run (bool * string) :=
  r <- c ;; record (Ran s repo (fst r)) ;; ret r.

(** The body of the loop of main.cpp:285-302; [continue] ends it.
    [None] is the body left by the exception [generate_hashes_md5] let
    through. *)
Definition publish_repo (gpg_key r log_text : string) : Run (option string) :=
  let log_text := log_text ++ "Procesando: " ++ r ++ nl in
  generated <- generate_hashes_md5 r "" ;;
  match generated with
  | None => ret None
  | Some (ok, tmp) =>
    record (Ran Generate r ok) ;;
    if negb ok then
      ret (Some (log_text ++ "ERROR generando hashes en " ++ r ++ nl
                   ++ tmp ++ nl))
    else
    let log_text := log_text ++ tmp in
    '(ok, tmp) <- staged Sign r (sign_hashes r gpg_key "") ;;
    if negb ok then
      ret (Some (log_text ++ "ERROR firmando en " ++ r ++ nl ++ tmp ++ nl))
    else
    let log_text := log_text ++ tmp in
    '(ok, tmp) <- staged Publish r (git_add_commit_push r "") ;;
    if negb ok then
      ret (Some (log_text ++ "ERROR git en " ++ r ++ nl ++ tmp ++ nl))
    else ret (Some (log_text ++ tmp))
  end.

(** The loop of main.cpp:285-302: an exception that leaves the body
    leaves the loop. *)
Fixpoint publish_loop (gpg_key : string) (repos : list string)
    (log_text : string) : Run (option string) :=
  match repos with
  | [] => ret (Some log_text)
  | r :: rs =>
    next <- publish_repo gpg_key r log_text ;;
    match next with
    | None => ret None
    | Some log_text => publish_loop gpg_key rs log_text
    end
  end.

(** A loop over the repositories whose body throws nothing (that of
    main.cpp:308-317). *)
Fixpoint for_each (body : string -> string -> Run string)
    (repos : list string) (log_text : string) : Run string :=
  match repos with
  | [] => ret log_text
  | r :: rs => log_text <- body r log_text ;; for_each body rs log_text
  end.

(** The handler of the first button (main.cpp:283-304). *)
Definition publish_all (repos : list string) (gpg_key log_text : string)
  : Run (option string) :=
  let log_text := log_text ++ "=== Generar & Firmar ===" ++ nl in
  done <- publish_loop gpg_key repos log_text ;;
  match done with
  | None => ret None
  | Some log_text => ret (Some (log_text ++ "=== Fin ===" ++ nl))
  end.

Definition ok_fail (b : bool) : string := if b then "OK" else "FAIL".

(** main.cpp:316. *)
Definition status_line (sigok mdok : bool) : string :=
  "Resultado: firma=" ++ ok_fail sigok ++ ", md5=" ++ ok_fail mdok ++ nl.

(** The body of the loop of main.cpp:308-317. *)
Definition verify_repo (gpg_key r log_text : string) : Run string :=
  let log_text := log_text ++ "Verificando: " ++ r ++ nl in
  '(sigok, tmp) <- staged VerifySignature r (verify_signature r gpg_key "") ;;
  let log_text := log_text ++ tmp in
  '(mdok, tmp) <- staged VerifyIntegrity r (verify_md5sum r "") ;;
  let log_text := log_text ++ tmp in
  ret (log_text ++ status_line sigok mdok).

(** The handler of the second button (main.cpp:306-319). *)
Definition verify_all (repos : list string) (gpg_key log_text : string)
  : Run string :=
  let log_text := log_text ++ "=== Verificar ===" ++ nl in
  log_text <- for_each (verify_repo gpg_key) repos log_text ;;
  ret (log_text ++ "=== Fin verificación ===" ++ nl).

(** One pass of the loop: detection, then the handlers of the buttons
    pressed.  [None] is [main] left by the exception the first handler
    let through: nothing catches it and the program ends there. *)
Definition frame (root_path gpg_key : string) (generar verificar : bool)
    (log_text : string) : Run (option (list Widget * string)) :=
  repos <- detect_repos root_path ;;
  let drawn := draw_repos repos in
  published <- (if generar then publish_all repos gpg_key log_text
                else ret (Some log_text)) ;;
  match published with
  | None => ret None
  | Some log_text =>
    log_text <- (if verificar then verify_all repos gpg_key log_text
                 else ret log_text) ;;
    ret (Some (drawn, log_text))
  end.

End Program.

(** ** A scripted host

    A host to run the program on: files with their bytes, directories
    with what their iterators yield, and external programs that answer
    from a script, one answer per command launched (popen fails once
    the script is used up). *)

Module Sim.

Record World : Type := mkWorld {
  files : list (string * string);
  listing : list (string * list DirEntry);
  read_only : list string;
  (** Where the file system fails: a directory whose traversal ends by
      an exception after the entries listed for it, a path whose status
      cannot be read. *)
  faulty : list string;
  script : list (string * Z)
}.

Fixpoint lookup {A : Type} (k : string) (l : list (string * A)) : option A :=
  match l with
  | [] => None
  | (k', a) :: l' => if (k =? k')%string then Some a else lookup k l'
  end.

Definition mem (k : string) (l : list string) : bool :=
  existsb (String.eqb k) l.

Definition put (p text : string) (w : World) : World :=
  {| files := (p, text) :: files w; listing := listing w;
     read_only := read_only w; faulty := faulty w; script := script w |}.

Definition answer (cmd : string) (w : World) : option (string * Z) * World :=
  match script w with
  | [] => (None, w)
  | a :: rest =>
    (Some a, {| files := files w; listing := listing w;
                read_only := read_only w; faulty := faulty w;
                script := rest |})
  end.

Definition open_trunc (p : string) (w : World) : option World :=
  if mem p (read_only w) then None else Some (put p "" w).

Definition exists_ (p : string) (w : World) : bool :=
  match lookup p (files w), lookup p (listing w) with
  | None, None => false
  | _, _ => true
  end.

Fixpoint strip (pre s : string) : option string :=
  match pre, s with
  | EmptyString, _ => Some s
  | String a pre', String b s' => if Ascii.eqb a b then strip pre' s' else None
  | String _ _, EmptyString => None
  end.

Definition relative (p base : string) : string :=
  match strip (base ++ "/") p with
  | Some rel => rel
  | None => p
  end.

(** A directory that is not there cannot be opened. *)
Definition entries (p : string) (w : World) : list DirEntry * bool :=
  match lookup p (listing w) with
  | Some l => (l, mem p (faulty w))
  | None => ([], true)
  end.

#[export] Instance host : Host World := {|
  popen := answer;
  ofstream_trunc := open_trunc;
  ofstream_close := put;
  file_contents := fun p w => lookup p (files w);
  fs_exists := exists_;
  fs_exists_error := fun p w => mem p (faulty w);
  fs_relative := relative;
  recursive_directory_iterator := entries;
  directory_iterator := entries;
  file_contents_close := fun p text w =>
    @eq_ind_r bool true
      (fun b : bool =>
         (if b then Some text else lookup p (files w)) = Some text)
      eq_refl (p =? p)%string (String.eqb_refl p)
|}.


Definition start (w : World) : State World := {| world := w; trace := [] |}.

Definition file (p : string) : DirEntry :=
  {| path := p; is_regular_file := true; is_directory := false |}.

Definition dir (p : string) : DirEntry :=
  {| path := p; is_regular_file := false; is_directory := true |}.

(** A repository [/w/r] with a marker directory, a [.gitignore], three
    tracked files and the manifest and signature of an earlier run. *)
Definition before_b : list DirEntry :=
  [ dir "/w/r/.git"; file "/w/r/.git/config"; file "/w/r/.gitignore";
    file "/w/r/a.txt"; file "/w/r/hashes.md5"; file "/w/r/hashes.md5.asc";
    dir "/w/r/src" ].

Definition repo_r : list DirEntry :=
  before_b ++ [ file "/w/r/src/b.c"; file "/w/r/z.txt" ].

Definition md5_a : string :=
  "0cc175b9c0f1b6a831c399e269772661  /w/r/a.txt" ++ nl.
Definition md5_b : string :=
  "92eb5ffee6ae2fec3ad71c777531578f  /w/r/src/b.c" ++ nl.
Definition md5_z : string :=
  "fbade9e36a3f36d3d676c1b808451dd7  /w/r/z.txt" ++ nl.

(** Under [/w]: the repository [r], a directory [plain] without marker, a
    repository [s] whose manifest cannot be created, and a file.
    [/empty] has no entry and [/nope] does not exist.
    Under [/v]: the repositories [r1] and [r2] and, between them, a
    directory [mid] that may not be searched.
    Under [/x]: a repository [a] with a directory [locked] that cannot be
    read, which ends its traversal, and a repository [b]. *)
Definition disk (answers : list (string * Z)) : World :=
  {| files := [("/w/r/hashes.md5", "old"); ("/w/r/hashes.md5.asc", "old sig");
               ("/w/notes.txt", "")];
     listing := [("/w", [dir "/w/r"; dir "/w/plain"; file "/w/notes.txt";
                         dir "/w/s"]);
                 ("/w/r", repo_r); ("/w/r/.git", []); ("/w/plain", []);
                 ("/w/s", [dir "/w/s/.git"]); ("/w/s/.git", []);
                 ("/empty", []);
                 ("/v", [dir "/v/r1"; dir "/v/mid"; dir "/v/r2"]);
                 ("/v/r1/.git", []); ("/v/r2/.git", []);
                 ("/x", [dir "/x/a"; dir "/x/b"]);
                 ("/x/a", [dir "/x/a/.git"; file "/x/a/f.txt";
                           dir "/x/a/locked"]);
                 ("/x/a/.git", []);
                 ("/x/b", [dir "/x/b/.git"; file "/x/b/g.txt"]);
                 ("/x/b/.git", [])];
     read_only := ["/w/s/hashes.md5"];
     faulty := ["/v/mid/.git"; "/x/a"];
     script := answers |}.

(** The answers of git to two publications in a row: add, status with a
    change, commit, push; then add and a status without change. *)
Definition twice : list (string * Z) :=
  [ ("", 0); (" M hashes.md5.asc" ++ nl, 0); ("[main 1a2b3c4] ok" ++ nl, 0);
    ("", 0); ("", 0); ("", 0) ].

(** The answers of git to two publications in a row of a repository
    that holds a file git does not track: add, a status that lists the
    two files added and the untracked one, commit, push; then add, a
    status that lists the untracked file alone, and a commit that finds
    nothing added and fails. *)
Definition twice_untracked : list (string * Z) :=
  [ ("", 0);
    ("A  hashes.md5" ++ nl ++ "A  hashes.md5.asc" ++ nl ++ "?? notes.txt" ++ nl,
     0);
    ("[main 1a2b3c4] ok" ++ nl, 0);
    ("", 0);
    ("", 0);
    ("?? notes.txt" ++ nl, 0);
    ("nothing added to commit but untracked files present" ++ nl, 1) ].

(** What md5sum says of a file it may not read. *)
Definition denied : string :=
  "md5sum: /w/r/src/b.c: Permission denied" ++ nl.

(** A repository [/b] that holds nothing but its marker directory, a
    [.gitignore] and an old manifest, and no program to answer. *)
Definition bare : World :=
  {| files := [("/b/hashes.md5", "old")];
     listing := [("/b", [dir "/b/.git"; file "/b/.git/HEAD";
                         file "/b/.gitignore"; file "/b/hashes.md5"])];
     read_only := [];
     faulty := [];
     script := [] |}.

End Sim.

(** ** What the specification speaks of *)

(** A computation that puts only commands on the trace. *)
Definition quiet {World A : Type} (c : M World A) : Prop :=
  forall st, exists cmds : list string,
    trace (snd (c st)) = (trace st ++ map Exec cmds)%list.

(** An entry for a file that may be hashed: a regular file among [ps],
    under [./] and its path relative to the repository, which does not
    start with [.git] and is neither [hashes.md5] nor [hashes.md5.asc]. *)
Definition hashed_entry {World : Type} {host : Host World}
    (repo : string) (ps : list DirEntry) (e : ManifestEntry) : Prop :=
  exists p, In p ps /\ is_regular_file p = true /\
    let srel := fs_relative (World := World) (path p) repo in
    relative_path e = "./" ++ srel /\
    Str.starts_with ".git" srel = false /\
    srel <> "hashes.md5" /\ srel <> "hashes.md5.asc".

(** What the loop of [generate_hashes_md5] has written when it ends. *)
Definition written {World : Type}
    (r : bool * list ManifestEntry * string * State World)
  : list ManifestEntry :=
  snd (fst (fst r)).

(** What the second button leaves for one repository. *)
Record VerifyReport : Type := mkReport {
  sig_ok : bool;
  md5_ok : bool;
  diagnostics : string
}.

Definition verify_events (rr : string * VerifyReport) : list Event :=
  let (r, rep) := rr in
  [Ran VerifySignature r (sig_ok rep); Ran VerifyIntegrity r (md5_ok rep)].

Definition verify_block (rr : string * VerifyReport) : string :=
  let (r, rep) := rr in
  "Verificando: " ++ r ++ nl ++ diagnostics rep
    ++ status_line (sig_ok rep) (md5_ok rep).

(** ** What the further properties speak of *)

(** The entries the loop of [generate_hashes_md5] hands to md5sum: the
    three tests of main.cpp:61-65 all let them through. *)
Definition hashable {World : Type} {host : Host World}
    (repo : string) (p : DirEntry) : bool :=
  let srel := fs_relative (World := World) (path p) repo in
  is_regular_file p
  && negb (Str.starts_with ".git" srel)
  && negb ((srel =? "hashes.md5") || (srel =? "hashes.md5.asc"))%string.

(** The command launched for an entry. *)
Definition md5sum_of (p : DirEntry) : Event := Exec (md5sum_command (path p)).

(** What is written for an entry whose md5sum output is [out]: one
    entry under the first token, or nothing when there is no token. *)
Definition entry_for {World : Type} {host : Host World}
    (repo : string) (po : DirEntry * string) : list ManifestEntry :=
  let (p, out) := po in
  match Str.first_token out with
  | Some hash =>
    [mkEntry hash ("./" ++ fs_relative (World := World) (path p) repo)]
  | None => []
  end.

(** The commands of [generate_hashes_md5] alone: md5sum over [files],
    one after the other, up to the first status other than 0.  The
    result is the files hashed with what md5sum wrote for each, and the
    file that failed, if one did, with what md5sum wrote for it. *)
Fixpoint hash_run {World : Type} {host : Host World} (files : list DirEntry)
  : M World (list (DirEntry * string) * option (DirEntry * string)) :=
  match files with
  | [] => ret ([], None)
  | p :: files' =>
    bind (run_command_capture (md5sum_command (path p)))
      (fun a =>
         let (rc, out) := a in
         if negb (rc =? 0) then ret ([], Some (p, out))
         else bind (hash_run files')
                (fun b => let (hashed, failed) := b in
                          ret ((p, out) :: hashed, failed)))
  end.

(** The text of a manifest cut at its line feeds. *)
Fixpoint lines_of (s : string) : list string :=
  match s with
  | EmptyString => []
  | String c s' =>
    if Ascii.eqb c "010" then EmptyString :: lines_of s'
    else match lines_of s' with
         | [] => [String c EmptyString]
         | l :: ls => String c l :: ls
         end
  end.

(** A string without line feed. *)
Fixpoint no_nl (s : string) : bool :=
  match s with
  | EmptyString => true
  | String c s' => negb (Ascii.eqb c "010") && no_nl s'
  end.

(** The line of an entry, its line feed left out. *)
Definition entry_body (e : ManifestEntry) : string :=
  content_hash e ++ "  " ++ relative_path e.




(** A string without white space. *)
Fixpoint no_space (s : string) : bool :=
  match s with
  | EmptyString => true
  | String c s' => negb (Str.isspace c) && no_space s'
  end.

(** [b] is [a] with something appended. *)
Definition extends (a b : string) : Prop := exists s, b = a ++ s.

(** The commands of [git_add_commit_push] and its answer. *)
Inductive git_outcome (repo : string) : list Event -> bool -> Prop :=
| add_failed :
    git_outcome repo [Exec (in_repo repo git_add)] false
| status_failed :
    git_outcome repo
      [Exec (in_repo repo git_add); Exec (in_repo repo git_status)] false
| nothing_to_commit :
    git_outcome repo
      [Exec (in_repo repo git_add); Exec (in_repo repo git_status)] true
| commit_failed :
    git_outcome repo
      [Exec (in_repo repo git_add); Exec (in_repo repo git_status);
       Exec (in_repo repo git_commit)] false
| pushed (ok : bool) :
    git_outcome repo
      [Exec (in_repo repo git_add); Exec (in_repo repo git_status);
       Exec (in_repo repo git_commit); Exec (in_repo repo git_push)] ok.





(** The commands the second button may launch over [repos]. *)
Definition verification_event (repos : list string) (gpg_key : string)
    (e : Event) : Prop :=
  match e with
  | Exec c =>
    exists r, In r repos /\
      (c = verify_command r gpg_key \/
       c = in_repo r "md5sum -c hashes.md5")
  | Ran s r _ =>
    In r repos /\ (s = VerifySignature \/ s = VerifyIntegrity)
  end.

(** * Properties *)

Section Properties.

Context {World : Type} {host : Host World}.

Implicit Types (st : State World) (repo gpg_key out_log cmd : string).

(** ** The trace *)

Lemma run_command_capture_trace cmd st :
  trace (snd (run_command_capture cmd st)) = (trace st ++ [Exec cmd])%list.
Proof.
  unfold run_command_capture, bind, record, lift, ret; simpl.
  destruct (popen (cmd ++ " 2>&1") (world st)) as [[[result rc]|] w];
    reflexivity.
Qed.

Lemma quiet_ret (A : Type) (a : A) : quiet (ret (World := World) a).
Proof. intros st; exists []; simpl; now rewrite app_nil_r. Qed.

Lemma quiet_bind (A B : Type) (c : M World A) (k : A -> M World B) :
  quiet c -> (forall a, quiet (k a)) -> quiet (bind c k).
Proof.
  intros Hc Hk st. unfold bind.
  destruct (Hc st) as [cs Hcs]. destruct (c st) as [a st1]; simpl in Hcs.
  destruct (Hk a st1) as [ks Hks].
  exists (cs ++ ks)%list. now rewrite Hks, Hcs, map_app, app_assoc.
Qed.

Lemma quiet_observe (A : Type) (f : World -> A) : quiet (observe f).
Proof. intros st; exists []; simpl; now rewrite app_nil_r. Qed.

Lemma quiet_lift (A : Type) (f : World -> A * World) : quiet (lift f).
Proof.
  intros st; exists []; unfold lift.
  destruct (f (world st)); simpl; now rewrite app_nil_r.
Qed.

Lemma quiet_run_command_capture cmd : quiet (run_command_capture cmd).
Proof. intros st; exists [cmd]; apply run_command_capture_trace. Qed.

(** Splits a computation along its binds and tests. *)
Ltac quiet_steps :=
  repeat first
    [ apply quiet_ret | apply quiet_observe | apply quiet_lift
    | apply quiet_run_command_capture
    | apply quiet_bind; [ | intros ]
    | progress cbv beta zeta
    | match goal with
      | |- quiet (match ?x with _ => _ end) => destruct x
      | |- quiet (let (_, _) := ?x in _) => destruct x
      end ].

Lemma quiet_hash_loop repo ps :
  forall ofs out_log, quiet (hash_loop repo ps ofs out_log).
Proof.
  induction ps as [|p ps IH]; intros ofs out_log; simpl.
  - apply quiet_ret.
  - destruct (negb (is_regular_file p)); [apply IH|].
    destruct (Str.starts_with ".git" (fs_relative (path p) repo)); [apply IH|].
    destruct (_ || _)%bool; [apply IH|].
    apply quiet_bind; [apply quiet_run_command_capture|].
    intros [rc out]. destruct (negb (rc =? 0)); [apply quiet_ret|].
    destruct (Str.first_token out); apply IH.
Qed.

Lemma quiet_generate_hashes_md5 repo out_log :
  quiet (generate_hashes_md5 repo out_log).
Proof.
  intros st. unfold generate_hashes_md5.
  destruct (ofstream_trunc (repo // "hashes.md5") (world st)) as [w|].
  - match goal with
    | |- context [?c {| world := w; trace := trace st |}] =>
      assert (Hq : quiet c)
    end.
    { quiet_steps. apply quiet_hash_loop. }
    apply (Hq {| world := w; trace := trace st |}).
  - exists []; simpl; now rewrite app_nil_r.
Qed.

Lemma quiet_sign_hashes repo gpg_key out_log :
  quiet (sign_hashes repo gpg_key out_log).
Proof. unfold sign_hashes. quiet_steps. Qed.

Lemma quiet_git_run repo c out_log : quiet (git_run repo c out_log).
Proof. unfold git_run. quiet_steps. Qed.

Lemma quiet_git_add_commit_push repo out_log :
  quiet (git_add_commit_push repo out_log).
Proof.
  unfold git_add_commit_push.
  repeat first [ apply quiet_git_run | progress quiet_steps ].
Qed.

Lemma quiet_verify_signature repo gpg_key out_log :
  quiet (verify_signature repo gpg_key out_log).
Proof. unfold verify_signature. quiet_steps. Qed.

Lemma quiet_verify_md5sum repo out_log : quiet (verify_md5sum repo out_log).
Proof. unfold verify_md5sum. quiet_steps. Qed.

(** ** Strings *)

Lemma append_assoc (a b c : string) : (a ++ b) ++ c = a ++ b ++ c.
Proof. induction a as [|x a IH]; simpl; [reflexivity | now rewrite IH]. Qed.

Lemma append_nil_r (a : string) : a ++ "" = a.
Proof. induction a as [|x a IH]; simpl; [reflexivity | now rewrite IH]. Qed.

Lemma prefix_spec (t s : string) :
  String.prefix t s = true <-> exists b, s = t ++ b.
Proof.
  revert s; induction t as [|c t IH]; intros s.
  - split; [exists s; reflexivity | now destruct s].
  - destruct s as [|d s]; simpl.
    + split; [discriminate | intros [b Hb]; discriminate].
    + destruct (ascii_dec c d) as [->|Hcd].
      * rewrite IH. split; intros [b Hb]; exists b; congruence.
      * split; [discriminate | intros [b Hb]; congruence].
Qed.

Lemma contains_unfold (t s : string) :
  Str.contains t s =
  if String.prefix t s then true
  else match s with
       | EmptyString => false
       | String _ s' => Str.contains t s'
       end.
Proof. destruct s; reflexivity. Qed.

(** [Str.contains t s] says that [t] occurs in [s]. *)
Lemma contains_spec (t s : string) :
  Str.contains t s = true <-> exists a b, s = a ++ t ++ b.
Proof.
  induction s as [|c s IH]; rewrite contains_unfold;
    destruct (String.prefix t _) eqn:E.
  - apply prefix_spec in E. destruct E as [b Hb].
    split; [intros _; exists "", b; exact Hb | reflexivity].
  - split; [discriminate|]. intros (a & b & H).
    destruct a; [|discriminate]. simpl in H.
    assert (String.prefix t "" = true) by (apply prefix_spec; eauto).
    congruence.
  - apply prefix_spec in E. destruct E as [b Hb].
    split; [intros _; exists "", b; exact Hb | reflexivity].
  - rewrite IH. split.
    + intros (a & b & ->). exists (String c a), b. reflexivity.
    + intros (a & b & H). destruct a as [|d a].
      * simpl in H.
        assert (String.prefix t (String c s) = true)
          by (apply prefix_spec; eauto).
        congruence.
      * simpl in H. injection H as _ ->. eauto.
Qed.

(** ** Manifest generation *)

(** The loop over [l1 ++ l2] is the loop over [l1], then, unless that was
    left by [return false], the loop over [l2]. *)
Lemma hash_loop_app repo l1 l2 :
  forall ofs out_log st,
  hash_loop repo (l1 ++ l2) ofs out_log st =
  match hash_loop repo l1 ofs out_log st with
  | ((true, ofs1, log1), st1) => hash_loop repo l2 ofs1 log1 st1
  | ((false, ofs1, log1), st1) => ((false, ofs1, log1), st1)
  end.
Proof.
  induction l1 as [|p l1 IH]; intros ofs out_log st; simpl; [reflexivity|].
  destruct (negb (is_regular_file p)); [apply IH|].
  destruct (Str.starts_with ".git" (fs_relative (path p) repo)); [apply IH|].
  destruct (_ || _)%bool; [apply IH|].
  unfold bind.
  destruct (run_command_capture (md5sum_command (path p)) st)
    as [[rc out] st1].
  destruct (negb (rc =? 0)); [reflexivity|].
  destruct (Str.first_token out); apply IH.
Qed.

(** Every entry the loop writes is for a file that may be hashed. *)
Lemma hash_loop_entries repo all ps :
  forall ofs out_log st,
  incl ps all ->
  Forall (hashed_entry repo all) ofs ->
  Forall (hashed_entry repo all) (written (hash_loop repo ps ofs out_log st)).
Proof.
  induction ps as [|p ps IH]; intros ofs out_log st Hincl Hofs; simpl;
    [exact Hofs|].
  assert (Hp : In p all) by (apply Hincl; now left).
  assert (Hps : incl ps all) by (intros x Hx; apply Hincl; now right).
  destruct (is_regular_file p) eqn:Hreg; simpl; [|now apply IH].
  destruct (Str.starts_with ".git" (fs_relative (path p) repo)) eqn:Hgit;
    [now apply IH|].
  destruct (fs_relative (path p) repo =? "hashes.md5")%string eqn:Hman;
    simpl; [now apply IH|].
  destruct (fs_relative (path p) repo =? "hashes.md5.asc")%string eqn:Hasc;
    simpl; [now apply IH|].
  unfold bind.
  destruct (run_command_capture (md5sum_command (path p)) st)
    as [[rc out] st1].
  destruct (negb (rc =? 0)); [exact Hofs|].
  destruct (Str.first_token out) as [hash|]; [|now apply IH].
  apply IH; [exact Hps|].
  apply Forall_app; split; [exact Hofs|].
  constructor; [|constructor].
  exists p. simpl. rewrite Hgit.
  apply String.eqb_neq in Hman, Hasc. auto 6.
Qed.

(** C9. A regular file whose path relative to the repository starts with
    the characters [.git], wherever it lies, is passed over by the loop
    of [generate_hashes_md5]: the loop runs as if the file were not
    there, and no entry it writes bears that relative path. *)
Theorem git_prefixed_file_omitted repo l1 p l2 ofs out_log st :
  is_regular_file p = true ->
  Str.starts_with ".git" (fs_relative (path p) repo) = true ->
  hash_loop repo (l1 ++ p :: l2) ofs out_log st =
    hash_loop repo (l1 ++ l2) ofs out_log st /\
  forall e, In e (written (hash_loop repo (l1 ++ p :: l2) [] out_log st)) ->
            relative_path e <> "./" ++ fs_relative (path p) repo.
Proof.
  intros Hreg Hgit. split.
  - rewrite !hash_loop_app.
    destruct (hash_loop repo l1 ofs out_log st) as [[[[|] ofs1] log1] st1];
      [|reflexivity].
    simpl. now rewrite Hreg, Hgit.
  - intros e He.
    pose proof (@hash_loop_entries repo (l1 ++ p :: l2) (l1 ++ p :: l2) []
                  out_log st (incl_refl _) (Forall_nil _)) as Hes.
    rewrite Forall_forall in Hes.
    destruct (Hes e He) as (q & _ & _ & Hrel & Hq & _).
    rewrite Hrel. intros Heq. injection Heq as Heq.
    rewrite Heq in Hq. congruence.
Qed.

(** The loop at a file whose hashing fails. *)
Lemma hash_loop_hash_failure repo p l2 ofs out_log st rc out st2 :
  is_regular_file p = true ->
  Str.starts_with ".git" (fs_relative (path p) repo) = false ->
  fs_relative (path p) repo <> "hashes.md5" ->
  fs_relative (path p) repo <> "hashes.md5.asc" ->
  run_command_capture (md5sum_command (path p)) st = ((rc, out), st2) ->
  rc <> 0 ->
  hash_loop repo (p :: l2) ofs out_log st =
    ((false, ofs,
      out_log ++ "md5sum fallo para " ++ path p ++ " :" ++ nl ++ out ++ nl),
     st2).
Proof.
  intros Hreg Hgit Hman Hasc Hrun Hrc.
  apply String.eqb_neq in Hman, Hasc. apply Z.eqb_neq in Hrc.
  cbn [hash_loop]. rewrite Hreg, Hgit, Hman, Hasc. cbn [negb orb].
  unfold bind. rewrite Hrun, Hrc. reflexivity.
Qed.

(** C3. When md5sum returns a status other than 0 for a file, after the
    loop went through the files before it, [generate_hashes_md5]
    answers false, launches no further command, and leaves as manifest
    the entries written for the files before, whatever the traversal
    would have met after that file. *)
Theorem generate_aborts_on_hash_failure
    repo out_log st w l1 p l2 throws ofs1 log1 st1 rc out st2 :
  ofstream_trunc (repo // "hashes.md5") (world st) = Some w ->
  recursive_directory_iterator repo w = ((l1 ++ p :: l2)%list, throws) ->
  hash_loop repo l1 [] out_log {| world := w; trace := trace st |}
    = ((true, ofs1, log1), st1) ->
  is_regular_file p = true ->
  Str.starts_with ".git" (fs_relative (path p) repo) = false ->
  fs_relative (path p) repo <> "hashes.md5" ->
  fs_relative (path p) repo <> "hashes.md5.asc" ->
  run_command_capture (md5sum_command (path p)) st1 = ((rc, out), st2) ->
  rc <> 0 ->
  let r := generate_hashes_md5 repo out_log st in
  option_map fst (fst r) = Some false /\
  trace (snd r) = trace st2 /\
  file_contents (repo // "hashes.md5") (world (snd r))
    = Some (manifest_text ofs1).
Proof.
  intros Hopen Hiter Hbefore Hreg Hgit Hman Hasc Hrun Hrc r.
  assert (Hloop :
    hash_loop repo (l1 ++ p :: l2) [] out_log
      {| world := w; trace := trace st |}
    = ((false, ofs1,
        log1 ++ "md5sum fallo para " ++ path p ++ " :" ++ nl ++ out ++ nl),
       st2)).
  { rewrite hash_loop_app, Hbefore.
    now apply hash_loop_hash_failure with (rc := rc). }
  subst r. unfold generate_hashes_md5. rewrite Hopen.
  unfold bind, observe, lift. cbn [world]. rewrite Hiter, Hloop. cbn.
  repeat split. apply file_contents_close.
Qed.

(** ** Signature verification *)

(** C10. [verify_signature] fails at once, launching no command and
    leaving the host as it was, whenever the signature file or the
    manifest file of the repository does not exist. *)
Theorem verify_signature_missing_file repo gpg_key out_log st :
  fs_exists (repo // "hashes.md5.asc") (world st) = false \/
  fs_exists (repo // "hashes.md5") (world st) = false ->
  verify_signature repo gpg_key out_log st =
    ((false,
      out_log ++ "Faltan archivos de firma o hashes en " ++ repo ++ nl), st).
Proof.
  intros Hmiss. unfold verify_signature, bind, observe, ret.
  replace (fs_exists (repo // "hashes.md5.asc") (world st)
           && fs_exists (repo // "hashes.md5") (world st))%bool with false.
  - reflexivity.
  - symmetry. apply andb_false_iff. exact Hmiss.
Qed.


(** ** Publishing *)

(** X18. When [git add] succeeds and [git status --porcelain] returns
    status 0 with an empty output, [git_add_commit_push] answers true,
    logs that there is nothing to commit, and has launched these two
    commands only: no commit and no push.  [st] is any state, that left
    by an earlier publication included. *)
Theorem git_nothing_to_commit repo out_log st out1 st1 st2 :
  run_command_capture (in_repo repo git_add) st = ((0, out1), st1) ->
  run_command_capture (in_repo repo git_status) st1 = ((0, ""), st2) ->
  git_add_commit_push repo out_log st =
    ((true, out_log ++ out1 ++ "No hay cambios para commitear en "
              ++ repo ++ nl), st2) /\
  trace st2 = (trace st ++ [Exec (in_repo repo git_add);
                            Exec (in_repo repo git_status)])%list.
Proof.
  intros Hadd Hstatus. split.
  - unfold git_add_commit_push, git_run, bind, ret.
    rewrite Hadd. simpl. rewrite Hstatus. simpl.
    now rewrite append_assoc.
  - pose proof (run_command_capture_trace (in_repo repo git_add) st) as H1.
    pose proof (run_command_capture_trace (in_repo repo git_status) st1) as H2.
    rewrite Hadd in H1. rewrite Hstatus in H2. simpl in H1, H2.
    now rewrite H2, H1, <- app_assoc.
Qed.

(** ** Signing *)

(** X17. Without a manifest [sign_hashes] answers false, names the
    missing file, launches no command and leaves the host as it was. *)
Lemma sign_hashes_missing_manifest repo gpg_key out_log st :
  fs_exists (repo // "hashes.md5") (world st) = false ->
  sign_hashes repo gpg_key out_log st =
    ((false, out_log ++ "No existe " ++ repo // "hashes.md5" ++ nl), st).
Proof.
  intros Hmiss. unfold sign_hashes, bind, observe, ret. now rewrite Hmiss.
Qed.

Lemma sign_hashes_status repo gpg_key out_log st rc out st' :
  fs_exists (repo // "hashes.md5") (world st) = true ->
  run_command_capture (sign_command repo gpg_key) st = ((rc, out), st') ->
  fst (fst (sign_hashes repo gpg_key out_log st)) = (rc =? 0) /\
  snd (sign_hashes repo gpg_key out_log st) = st'.
Proof.
  intros Hman Hrun. unfold sign_hashes, bind, observe, ret.
  rewrite Hman. simpl. rewrite Hrun. now destruct (rc =? 0).
Qed.

(** Without a key the command names none: gpg signs as its default
    identity. *)
Lemma sign_command_default_identity repo :
  sign_command repo "" =
    "gpg --armor --output " ++ quoted (repo // "hashes.md5.asc")
      ++ " --sign " ++ quoted (repo // "hashes.md5").
Proof. reflexivity. Qed.

(** ** The button handlers *)

Lemma stages_app (a b : list Event) :
  stages (a ++ b) = (stages a ++ stages b)%list.
Proof. apply filter_app. Qed.

Lemma stages_commands (cmds : list string) : stages (map Exec cmds) = [].
Proof. induction cmds; simpl; auto. Qed.

(** A stage puts its commands, then its result, on the trace. *)
Lemma staged_stages (s : Stage) (r : string) (c : M World (bool * string)) st :
  quiet c ->
  stages (trace (snd (staged s r c st)))
    = (stages (trace st) ++ [Ran s r (fst (fst (staged s r c st)))])%list.
Proof.
  intros Hc. destruct (Hc st) as [cmds Hcmds].
  unfold staged, bind, record, ret.
  destruct (c st) as [res st1]. simpl in *.
  now rewrite Hcmds, !stages_app, stages_commands, app_nil_r.
Qed.

(** Rewrites the next stage of a handler by [staged_stages]. *)
Ltac next_stage Hq :=
  unfold bind at 1; cbv beta;
  lazymatch goal with
  | |- context [staged ?s ?r ?c ?st] =>
    let Htr := fresh "Htr" in
    let st' := fresh "st" in
    let ok := fresh "ok" in
    let tmp := fresh "tmp" in
    pose proof (@staged_stages s r c st Hq) as Htr;
    destruct (staged s r c st) as [[ok tmp] st'];
    cbn [fst snd] in Htr
  end.

Lemma verify_repo_report gpg_key r log_text st :
  exists rep st',
    verify_repo gpg_key r log_text st = (log_text ++ verify_block (r, rep), st')
    /\
    stages (trace st') = (stages (trace st) ++ verify_events (r, rep))%list.
Proof.
  unfold verify_repo. cbv zeta.
  next_stage (@quiet_verify_signature r gpg_key "").
  next_stage (@quiet_verify_md5sum r "").
  exists {| sig_ok := ok; md5_ok := ok0; diagnostics := tmp ++ tmp0 |}, st1.
  unfold ret, verify_block, verify_events.
  cbn [sig_ok md5_ok diagnostics]. split.
  - f_equal. now rewrite !append_assoc.
  - rewrite Htr0, Htr, <- app_assoc. reflexivity.
Qed.














(** ** Repository detection *)



(** ** More on manifest generation *)

Lemma hash_loop_skip repo p ps ofs out_log st :
  hashable repo p = false ->
  hash_loop repo (p :: ps) ofs out_log st = hash_loop repo ps ofs out_log st.
Proof.
  unfold hashable. cbn [hash_loop]. intros Hp.
  destruct (is_regular_file p); [|reflexivity]. cbn [negb].
  destruct (Str.starts_with ".git" (fs_relative (path p) repo));
    [reflexivity|].
  destruct (_ || _)%bool; [reflexivity | discriminate Hp].
Qed.

Lemma hash_loop_step repo p ps ofs out_log st :
  hashable repo p = true ->
  hash_loop repo (p :: ps) ofs out_log st =
  let (a, st1) := run_command_capture (md5sum_command (path p)) st in
  let (rc, out) := a in
  if negb (rc =? 0) then
    ((false, ofs,
      out_log ++ "md5sum fallo para " ++ path p ++ " :" ++ nl ++ out ++ nl),
     st1)
  else hash_loop repo ps (ofs ++ entry_for repo (p, out)) out_log st1.
Proof.
  unfold hashable, entry_for. cbn [hash_loop]. intros Hp.
  destruct (is_regular_file p); [|discriminate Hp]. cbn [negb].
  destruct (Str.starts_with ".git" (fs_relative (path p) repo));
    [discriminate Hp|].
  destruct (_ || _)%bool; [discriminate Hp|].
  unfold bind.
  destruct (run_command_capture (md5sum_command (path p)) st)
    as [[rc out] st1].
  destruct (negb (rc =? 0)); [reflexivity|].
  destruct (Str.first_token out); [reflexivity|].
  now rewrite app_nil_r.
Qed.

(** The loop hands to md5sum the hashable entries, in the order of the
    traversal, each once, up to the first failure, and nothing else. *)
Lemma hash_loop_commands repo ps :
  forall ofs out_log st,
  let r := hash_loop repo ps ofs out_log st in
  let files := filter (hashable repo) ps in
  exists n,
    trace (snd r) = (trace st ++ map md5sum_of (firstn n files))%list /\
    (fst (fst (fst r)) = true -> n = length files) /\
    (fst (fst (fst r)) = false -> 0 < n <= length files)%nat.
Proof.
  induction ps as [|p ps IH]; intros ofs out_log st.
  - exists 0%nat. cbn. rewrite app_nil_r. repeat split; [discriminate|lia].
  - cbv zeta. cbn [filter]. destruct (hashable repo p) eqn:Hp.
    + rewrite hash_loop_step by exact Hp.
      pose proof (run_command_capture_trace (md5sum_command (path p)) st)
        as Htr.
      destruct (run_command_capture (md5sum_command (path p)) st)
        as [[rc out] st1]. cbn [snd] in Htr.
      destruct (negb (rc =? 0)).
      * exists 1%nat. cbn. rewrite Htr.
        repeat split; [discriminate | lia | lia].
      * destruct (IH (ofs ++ entry_for repo (p, out))%list out_log st1)
          as (n & Hn & Hok & Hko).
        exists (S n). cbn [firstn map length]. rewrite Hn, Htr, <- app_assoc.
        repeat split; auto; try (apply Hko in H; lia).
    + rewrite hash_loop_skip by exact Hp. apply IH.
Qed.

(** When the loop reaches its end, what it has written is, for each
    hashable entry in the order of the traversal, the entry of its
    md5sum output, and [out_log] is as it was. *)
Lemma hash_loop_success repo ps :
  forall ofs out_log st,
  let r := hash_loop repo ps ofs out_log st in
  fst (fst (fst r)) = true ->
  exists outs,
    length outs = length (filter (hashable repo) ps) /\
    written r
      = (ofs ++ flat_map (entry_for repo)
                  (combine (filter (hashable repo) ps) outs))%list /\
    snd (fst r) = out_log.
Proof.
  induction ps as [|p ps IH]; intros ofs out_log st; cbv zeta.
  - intros _. exists []. cbn. now rewrite app_nil_r.
  - cbn [filter]. destruct (hashable repo p) eqn:Hp.
    + rewrite hash_loop_step by exact Hp.
      destruct (run_command_capture (md5sum_command (path p)) st)
        as [[rc out] st1].
      destruct (negb (rc =? 0)); [discriminate|].
      intros Hok. destruct (IH _ _ _ Hok) as (outs & Hlen & Hw & Hlog).
      exists (out :: outs). cbn [length combine flat_map].
      rewrite Hw, Hlog, Hlen, <- app_assoc. auto.
    + rewrite hash_loop_skip by exact Hp. apply IH.
Qed.

(** The loop launches the commands of [hash_run] over the hashable
    entries and writes the entry of each file hashed; it ends by
    [return false] exactly when [hash_run] meets a failure, which it
    logs. *)
Lemma hash_loop_run repo ps :
  forall ofs out_log st hashed failed st',
  hash_run (filter (hashable repo) ps) st = ((hashed, failed), st') ->
  hash_loop repo ps ofs out_log st =
  (match failed with
   | None => (true, (ofs ++ flat_map (entry_for repo) hashed)%list, out_log)
   | Some (p, out) =>
     (false, (ofs ++ flat_map (entry_for repo) hashed)%list,
      out_log ++ "md5sum fallo para " ++ path p ++ " :" ++ nl ++ out ++ nl)
   end, st').
Proof.
  induction ps as [|p ps IH]; intros ofs out_log st hashed failed st' Hrun.
  - cbn in Hrun. injection Hrun as <- <- <-. cbn [flat_map].
    now rewrite app_nil_r.
  - cbn [filter] in Hrun. destruct (hashable repo p) eqn:Hp.
    + rewrite hash_loop_step by exact Hp.
      cbn [hash_run] in Hrun. unfold bind at 1 in Hrun.
      destruct (run_command_capture (md5sum_command (path p)) st)
        as [[rc out] st1].
      destruct (negb (rc =? 0)).
      * injection Hrun as <- <- <-. cbn [flat_map]. now rewrite app_nil_r.
      * unfold bind in Hrun.
        destruct (hash_run (filter (hashable repo) ps) st1)
          as [[hashed1 failed1] st2] eqn:E.
        injection Hrun as <- <- <-.
        rewrite (IH _ out_log _ _ _ _ E). cbn [flat_map].
        rewrite <- !app_assoc. reflexivity.
    + rewrite hash_loop_skip by exact Hp. now apply IH.
Qed.

(** [hash_run] goes through the files in their order: it hashes all of
    them, or those before the one that fails, and launches md5sum for
    these and nothing else. *)
Lemma hash_run_files (files : list DirEntry) :
  forall st hashed failed st',
  hash_run files st = ((hashed, failed), st') ->
  match failed with
  | None =>
    map fst hashed = files /\
    trace st' = (trace st ++ map md5sum_of files)%list
  | Some (p, _) =>
    (exists rest, files = (map fst hashed ++ p :: rest)%list) /\
    trace st' = (trace st ++ map md5sum_of (map fst hashed ++ [p]))%list
  end.
Proof.
  induction files as [|p files IH]; intros st hashed failed st' Hrun.
  - cbn in Hrun. injection Hrun as <- <- <-. cbn. now rewrite app_nil_r.
  - cbn [hash_run] in Hrun. unfold bind at 1 in Hrun.
    pose proof (run_command_capture_trace (md5sum_command (path p)) st)
      as Htr.
    destruct (run_command_capture (md5sum_command (path p)) st)
      as [[rc out] st1]. cbn [snd] in Htr.
    destruct (negb (rc =? 0)).
    + injection Hrun as <- <- <-. cbn [map app]. split; [now exists files|].
      exact Htr.
    + unfold bind in Hrun.
      destruct (hash_run files st1) as [[hashed1 failed1] st2] eqn:E.
      injection Hrun as <- <- <-. specialize (IH _ _ _ _ E).
      destruct failed1 as [[q o]|]; cbn [map fst app].
      * destruct IH as [[rest ->] ->]. split; [now exists rest|].
        rewrite Htr, <- app_assoc. reflexivity.
      * destruct IH as [-> ->]. split; [reflexivity|].
        rewrite Htr, <- app_assoc. reflexivity.
Qed.

(** What [generate_hashes_md5] does once its stream is open. *)
Lemma generate_hashes_md5_opened
    repo out_log st w ps throws hashed failed st1 :
  ofstream_trunc (repo // "hashes.md5") (world st) = Some w ->
  recursive_directory_iterator repo w = (ps, throws) ->
  hash_run (filter (hashable repo) ps) {| world := w; trace := trace st |}
    = ((hashed, failed), st1) ->
  let closed :=
    {| world := ofstream_close (repo // "hashes.md5")
                  (manifest_text (flat_map (entry_for repo) hashed))
                  (world st1);
       trace := trace st1 |} in
  generate_hashes_md5 repo out_log st =
  match failed with
  | None =>
    if throws then (None, st1)
    else (Some (true, out_log ++ "Generado: " ++ repo // "hashes.md5" ++ nl),
          closed)
  | Some (p, out) =>
    (Some (false,
           out_log ++ "md5sum fallo para " ++ path p ++ " :" ++ nl
             ++ out ++ nl), closed)
  end.
Proof.
  intros Hopen Hiter Hrun closed. unfold generate_hashes_md5. rewrite Hopen.
  unfold bind at 1. unfold observe at 1. cbn [world]. rewrite Hiter.
  unfold bind at 1.
  rewrite (@hash_loop_run repo ps [] out_log _ _ _ _ Hrun). cbn [app].
  destruct failed as [[p out]|].
  - reflexivity.
  - destruct throws; reflexivity.
Qed.

(** X1. When the manifest cannot be opened, [generate_hashes_md5]
    answers false, says which file it could not create, launches no
    command and leaves the host as it was. *)
Theorem generate_cannot_create repo out_log st :
  ofstream_trunc (repo // "hashes.md5") (world st) = None ->
  generate_hashes_md5 repo out_log st =
    (Some (false,
           out_log ++ "Error: no se puede crear " ++ repo // "hashes.md5"
             ++ nl),
     st).
Proof. intros Hopen. unfold generate_hashes_md5. now rewrite Hopen. Qed.

(** X2. When [generate_hashes_md5] answers true, the traversal reached
    its end, md5sum was launched once for each hashable entry, in the
    order of the traversal, and returned 0 each time; the manifest it
    leaves holds, for each of these entries and in that order, the line
    made of the first token of what md5sum wrote for that entry and of
    [./] and the relative path, or no line where md5sum wrote no token;
    and the log received the one line [Generado]. *)
Theorem generate_success repo out_log st log' st' :
  generate_hashes_md5 repo out_log st = (Some (true, log'), st') ->
  exists w ps hashed st1,
    ofstream_trunc (repo // "hashes.md5") (world st) = Some w /\
    recursive_directory_iterator repo w = (ps, false) /\
    hash_run (filter (hashable repo) ps) {| world := w; trace := trace st |}
      = ((hashed, None), st1) /\
    map fst hashed = filter (hashable repo) ps /\
    file_contents (repo // "hashes.md5") (world st')
      = Some (manifest_text (flat_map (entry_for repo) hashed)) /\
    trace st' = (trace st ++ map md5sum_of (filter (hashable repo) ps))%list
    /\
    log' = out_log ++ "Generado: " ++ repo // "hashes.md5" ++ nl.
Proof.
  intros Hgen.
  destruct (ofstream_trunc (repo // "hashes.md5") (world st)) as [w|] eqn:Hopen.
  2:{ unfold generate_hashes_md5 in Hgen. rewrite Hopen in Hgen.
      discriminate. }
  destruct (recursive_directory_iterator repo w) as [ps throws] eqn:Hiter.
  destruct (hash_run (filter (hashable repo) ps)
              {| world := w; trace := trace st |})
    as [[hashed failed] st1] eqn:Hrun.
  rewrite (@generate_hashes_md5_opened repo out_log st w ps throws hashed failed
             st1 Hopen Hiter Hrun) in Hgen.
  pose proof (hash_run_files _ _ Hrun) as Hfiles.
  destruct failed as [[p out]|]; [discriminate|].
  destruct throws; [discriminate|].
  injection Hgen as <- <-. destruct Hfiles as [Hmap Htr].
  exists w, ps, hashed, st1. cbn [world trace].
  repeat split; auto. apply file_contents_close.
Qed.

(** X3. Whatever its answer, [generate_hashes_md5] launches md5sum and
    nothing else, on hashable entries only and in the order of the
    traversal: never on a file whose relative path starts with [.git],
    nor on [hashes.md5] or [hashes.md5.asc]. *)
Theorem generate_hashes_only_hashable repo out_log st w :
  ofstream_trunc (repo // "hashes.md5") (world st) = Some w ->
  exists n,
    trace (snd (generate_hashes_md5 repo out_log st))
      = (trace st
           ++ map md5sum_of
                (firstn n (filter (hashable repo)
                             (fst (recursive_directory_iterator repo w)))))%list.
Proof.
  intros Hopen. unfold generate_hashes_md5. rewrite Hopen.
  unfold bind at 1. unfold observe at 1. cbn [world].
  destruct (recursive_directory_iterator repo w) as [ps throws].
  unfold bind at 1. cbn [fst].
  destruct (hash_loop_commands repo ps [] out_log
              {| world := w; trace := trace st |})
    as (n & Htr & _).
  destruct (hash_loop repo ps [] out_log {| world := w; trace := trace st |})
    as [[[ok ofs] log1] st1].
  cbn [fst snd] in Htr. exists n.
  destruct ok; [destruct throws|]; exact Htr.
Qed.

(** ** Tokens *)

Lemma take_word_no_space (s : string) : no_space (Str.take_word s) = true.
Proof.
  induction s as [|c s IH]; cbn; [reflexivity|].
  destruct (Str.isspace c) eqn:E; cbn; [reflexivity|]. now rewrite E.
Qed.

(** What [iss >> tok] extracts is not empty and holds no white space. *)
Lemma first_token_word (s w : string) :
  Str.first_token s = Some w -> w <> "" /\ no_space w = true.
Proof.
  unfold Str.first_token. intros H.
  pose proof (take_word_no_space (Str.skip_space s)) as Hns.
  destruct (Str.take_word (Str.skip_space s)); [discriminate|].
  injection H as <-. split; [discriminate | exact Hns].
Qed.

Lemma take_word_append (w rest : string) (c : ascii) :
  no_space w = true -> Str.isspace c = true ->
  Str.take_word (w ++ String c rest) = w.
Proof.
  intros Hw Hc. induction w as [|d w IH]; cbn in *.
  - now rewrite Hc.
  - apply andb_true_iff in Hw. destruct Hw as [Hd Hw].
    apply negb_true_iff in Hd. rewrite Hd. now rewrite IH.
Qed.

(** A word followed by a blank is the first token of the line. *)
Lemma first_token_of_word (w rest : string) :
  w <> "" -> no_space w = true ->
  Str.first_token (w ++ String " " rest) = Some w.
Proof.
  intros Hne Hw. unfold Str.first_token.
  destruct w as [|d w]; [congruence|].
  assert (Hd : Str.isspace d = false).
  { cbn in Hw. apply andb_true_iff in Hw. now apply negb_true_iff. }
  replace (Str.skip_space (String d w ++ String " " rest))
    with (String d w ++ String " " rest) by (cbn; now rewrite Hd).
  rewrite take_word_append; [reflexivity | exact Hw | reflexivity].
Qed.

(** What holds of every entry made from a first token holds of all the
    loop writes. *)
Lemma hash_loop_invariant repo (P : ManifestEntry -> Prop) :
  (forall p out, Forall P (entry_for repo (p, out))) ->
  forall ps ofs out_log st,
  Forall P ofs -> Forall P (written (hash_loop repo ps ofs out_log st)).
Proof.
  intros HP. induction ps as [|p ps IH]; intros ofs out_log st Hofs.
  - exact Hofs.
  - destruct (hashable repo p) eqn:Hp.
    + rewrite hash_loop_step by exact Hp.
      destruct (run_command_capture (md5sum_command (path p)) st)
        as [[rc out] st1].
      destruct (negb (rc =? 0)); [exact Hofs|].
      apply IH. apply Forall_app. split; [exact Hofs | apply HP].
    + rewrite hash_loop_skip by exact Hp. now apply IH.
Qed.

(** ** The lines of the manifest *)

Lemma no_nl_append (a b : string) :
  no_nl (a ++ b) = (no_nl a && no_nl b)%bool.
Proof.
  induction a as [|c a IH]; cbn; [reflexivity|].
  now rewrite IH, andb_assoc.
Qed.

Lemma no_space_no_nl (s : string) : no_space s = true -> no_nl s = true.
Proof.
  induction s as [|c s IH]; cbn; [reflexivity|].
  intros H. apply andb_true_iff in H. destruct H as [Hc Hs].
  rewrite (IH Hs), andb_true_r.
  destruct (Ascii.eqb c "010") eqn:E; [|reflexivity].
  apply Ascii.eqb_eq in E. subst c. discriminate Hc.
Qed.

Lemma lines_of_line (a rest : string) :
  no_nl a = true -> lines_of (a ++ nl ++ rest) = a :: lines_of rest.
Proof.
  intros Ha. induction a as [|c a IH]; [reflexivity|].
  cbn in Ha. apply andb_true_iff in Ha. destruct Ha as [Hc Ha].
  apply negb_true_iff in Hc.
  change (String c a ++ nl ++ rest) with (String c (a ++ nl ++ rest)).
  cbn [lines_of]. rewrite Hc, (IH Ha). reflexivity.
Qed.

Lemma concat_cons (x : string) (xs : list string) :
  String.concat "" (x :: xs) = x ++ String.concat "" xs.
Proof.
  destruct xs; cbn [String.concat]; [now rewrite append_nil_r | reflexivity].
Qed.

(** A manifest whose entries hold no line feed has their lines, one
    for each in their order, and no other. *)
Lemma lines_of_manifest (es : list ManifestEntry) :
  Forall (fun e => no_nl (entry_body e) = true) es ->
  lines_of (manifest_text es) = map entry_body es.
Proof.
  unfold manifest_text. induction 1 as [|e es He Hes IH]; [reflexivity|].
  cbn [map]. rewrite concat_cons.
  replace (entry_line e) with (entry_body e ++ nl)
    by (unfold entry_line, entry_body; now rewrite !append_assoc).
  rewrite append_assoc, lines_of_line by exact He. now rewrite IH.
Qed.

(** An entry written comes from a file hashed and from what md5sum wrote
    for it. *)
Lemma entry_for_in repo (hashed : list (DirEntry * string)) (e : ManifestEntry) :
  In e (flat_map (entry_for repo) hashed) ->
  exists p out,
    In (p, out) hashed /\
    Str.first_token out = Some (content_hash e) /\
    relative_path e = "./" ++ fs_relative (path p) repo.
Proof.
  intros He. apply in_flat_map in He. destruct He as ([p out] & Hin & He).
  unfold entry_for in He.
  destruct (Str.first_token out) as [hash|] eqn:Htok; [|contradiction].
  destruct He as [<- | []]. exists p, out. auto.
Qed.

Lemma hash_run_hashed (files : list DirEntry) st hashed failed st' p out :
  hash_run files st = ((hashed, failed), st') ->
  In (p, out) hashed -> In p files.
Proof.
  intros Hrun Hin. pose proof (hash_run_files _ _ Hrun) as Hf.
  assert (Hp : In p (map fst hashed))
    by (apply in_map_iff; now exists (p, out)).
  destruct failed as [[q o]|].
  - destruct Hf as [[rest ->] _]. apply in_or_app. now left.
  - destruct Hf as [<- _]. exact Hp.
Qed.


(** The entries written, one by one. *)
Lemma hashed_entries repo ps st hashed failed st' e :
  hash_run (filter (hashable repo) ps) st = ((hashed, failed), st') ->
  In e (flat_map (entry_for repo) hashed) ->
  exists p,
    In p ps /\ hashable repo p = true /\
    relative_path e = "./" ++ fs_relative (path p) repo /\
    content_hash e <> "" /\ no_space (content_hash e) = true.
Proof.
  intros Hrun He.
  apply entry_for_in in He. destruct He as (p & out & Hin & Htok & Hrel).
  assert (Hp : In p (filter (hashable repo) ps))
    by (eapply hash_run_hashed; eassumption).
  apply filter_In in Hp. destruct Hp as [Hp Hh].
  apply first_token_word in Htok. destruct Htok as [Hne Hns].
  exists p. auto.
Qed.


(** X4. Once its stream is open, every entry [generate_hashes_md5]
    writes has a hash that is not empty and holds no white space, and
    the first token of its line is that hash; whenever the function
    returns, the manifest file holds the text of these entries; and,
    when no relative path holds a line feed, the lines of that text are
    the lines of these entries, one for each, so that every line of the
    manifest starts with its hash as a token. *)
Theorem manifest_lines_start_with_hash repo out_log st w ps throws :
  ofstream_trunc (repo // "hashes.md5") (world st) = Some w ->
  recursive_directory_iterator repo w = (ps, throws) ->
  let hashed := fst (fst (hash_run (filter (hashable repo) ps)
                            {| world := w; trace := trace st |})) in
  let es := flat_map (entry_for repo) hashed in
  let r := generate_hashes_md5 repo out_log st in
  Forall (fun e => content_hash e <> "" /\
                   no_space (content_hash e) = true /\
                   Str.first_token (entry_line e) = Some (content_hash e))
         es /\
  (fst r <> None ->
   file_contents (repo // "hashes.md5") (world (snd r))
     = Some (manifest_text es)) /\
  ((forall p, In p ps -> hashable repo p = true ->
              no_nl (fs_relative (path p) repo) = true) ->
   lines_of (manifest_text es) = map entry_body es /\
   Forall (fun l => exists hash,
             Str.first_token l = Some hash /\ hash <> "" /\
             String.prefix hash l = true)
          (lines_of (manifest_text es))).
Proof.
  intros Hopen Hiter hashed es r.
  destruct (hash_run (filter (hashable repo) ps)
              {| world := w; trace := trace st |})
    as [[hashed' failed] st1] eqn:Hrun.
  cbn [fst] in hashed. subst hashed.
  assert (Hes : forall e, In e es ->
    exists p, In p ps /\ hashable repo p = true /\
      relative_path e = "./" ++ fs_relative (path p) repo /\
      content_hash e <> "" /\ no_space (content_hash e) = true)
    by (intros e He; eapply hashed_entries; eassumption).
  split; [|split].
  - apply Forall_forall. intros e He.
    destruct (Hes e He) as (p & _ & _ & _ & Hne & Hns).
    repeat split; auto. unfold entry_line. now apply first_token_of_word.
  - subst r.
    rewrite (@generate_hashes_md5_opened repo out_log st w ps throws hashed'
               failed st1 Hopen Hiter Hrun).
    fold es. destruct failed as [[p out]|]; [|destruct throws]; cbn [fst snd];
      intros Hret; try congruence; apply file_contents_close.
  - intros Hnl.
    assert (Hbody : Forall (fun e => no_nl (entry_body e) = true) es).
    { apply Forall_forall. intros e He.
      destruct (Hes e He) as (p & Hp & Hh & Hrel & _ & Hns).
      unfold entry_body. rewrite Hrel, !no_nl_append.
      apply no_space_no_nl in Hns. rewrite Hns, (Hnl p Hp Hh).
      reflexivity. }
    rewrite lines_of_manifest by exact Hbody. split; [reflexivity|].
    apply Forall_forall. intros l Hl. apply in_map_iff in Hl.
    destruct Hl as (e & <- & He).
    destruct (Hes e He) as (p & _ & _ & _ & Hne & Hns).
    exists (content_hash e). unfold entry_body.
    split; [now apply first_token_of_word|]. split; [exact Hne|].
    apply prefix_spec. eexists; reflexivity.
Qed.

(** ** Integrity verification *)

(** X5. Without a manifest [verify_md5sum] answers false, names the
    missing file, launches no command and leaves the host as it was. *)
Theorem verify_md5sum_missing_manifest repo out_log st :
  fs_exists (repo // "hashes.md5") (world st) = false ->
  verify_md5sum repo out_log st =
    ((false, out_log ++ "No existe " ++ repo // "hashes.md5" ++ nl), st).
Proof.
  intros Hmiss. unfold verify_md5sum, bind, observe, ret. now rewrite Hmiss.
Qed.

(** X6. With a manifest [verify_md5sum] launches [md5sum -c hashes.md5]
    inside the repository, that command only, copies its output to the
    log and answers true exactly when its status is 0. *)
Theorem verify_md5sum_status repo out_log st rc out st' :
  fs_exists (repo // "hashes.md5") (world st) = true ->
  run_command_capture (in_repo repo "md5sum -c hashes.md5") st
    = ((rc, out), st') ->
  let r := verify_md5sum repo out_log st in
  (fst (fst r) = true <-> rc = 0) /\
  extends (out_log ++ out) (snd (fst r)) /\
  snd r = st' /\
  trace st' = (trace st ++ [Exec (in_repo repo "md5sum -c hashes.md5")])%list.
Proof.
  intros Hman Hrun r. subst r.
  pose proof (run_command_capture_trace
                (in_repo repo "md5sum -c hashes.md5") st) as Htr.
  rewrite Hrun in Htr. cbn [snd] in Htr.
  unfold verify_md5sum, bind, observe, ret. rewrite Hman. cbn [negb].
  rewrite Hrun. destruct (rc =? 0) eqn:Hrc; cbn [fst snd].
  - apply Z.eqb_eq in Hrc. repeat split; auto. eexists; reflexivity.
  - apply Z.eqb_neq in Hrc. repeat split; auto; try discriminate;
      try contradiction. eexists; reflexivity.
Qed.

(** ** Processes that cannot be started *)

Lemma run_command_capture_no_pipe cmd st :
  fst (popen (cmd ++ " 2>&1") (world st)) = None ->
  fst (run_command_capture cmd st) = (-1, "popen failed").
Proof.
  intros Hp. unfold run_command_capture, bind, record, lift, ret. cbn.
  destruct (popen (cmd ++ " 2>&1") (world st)) as [r w]. cbn in Hp.
  now subst r.
Qed.

(** Rewrites a command by its answer when popen gives no pipe. *)
Ltac no_pipe H :=
  match goal with
  | |- context [run_command_capture ?c ?st] =>
    let Hc := fresh "Hc" in
    pose proof (run_command_capture_no_pipe c st (H _)) as Hc;
    destruct (run_command_capture c st) as [[? ?] ?];
    cbn [fst] in Hc; injection Hc as -> ->
  end.

(** X7. In a world where popen gives no pipe, signing, publishing and
    both verifications answer false, whatever files exist. *)
Theorem stages_fail_without_popen repo gpg_key out_log st :
  (forall cmd, fst (popen cmd (world st)) = None) ->
  fst (fst (sign_hashes repo gpg_key out_log st)) = false /\
  fst (fst (git_add_commit_push repo out_log st)) = false /\
  fst (fst (verify_signature repo gpg_key out_log st)) = false /\
  fst (fst (verify_md5sum repo out_log st)) = false.
Proof.
  intros Hno. repeat split.
  - unfold sign_hashes, bind, observe, ret.
    destruct (fs_exists (repo // "hashes.md5") (world st)); cbn [negb];
      [|reflexivity].
    no_pipe Hno. reflexivity.
  - unfold git_add_commit_push, git_run, bind, ret.
    no_pipe Hno. reflexivity.
  - unfold verify_signature, bind, observe, ret.
    destruct (fs_exists (repo // "hashes.md5.asc") (world st)
              && fs_exists (repo // "hashes.md5") (world st))%bool;
      cbn [negb]; [|reflexivity].
    no_pipe Hno. reflexivity.
  - unfold verify_md5sum, bind, observe, ret.
    destruct (fs_exists (repo // "hashes.md5") (world st)); cbn [negb];
      [|reflexivity].
    no_pipe Hno. reflexivity.
Qed.

(** ** More on publishing *)

Lemma git_run_trace repo c out_log st :
  trace (snd (git_run repo c out_log st))
    = (trace st ++ [Exec (in_repo repo c)])%list.
Proof.
  unfold git_run, bind, ret.
  pose proof (run_command_capture_trace (in_repo repo c) st) as Htr.
  destruct (run_command_capture (in_repo repo c) st) as [[rc out] st1].
  now destruct (negb (rc =? 0)).
Qed.

Lemma git_add_commit_push_run repo out_log st :
  exists evs ok log' st',
    git_add_commit_push repo out_log st = ((ok, log'), st') /\
    trace st' = (trace st ++ evs)%list /\
    git_outcome repo evs ok.
Proof.
  unfold git_add_commit_push. unfold bind at 1.
  pose proof (git_run_trace repo git_add out_log st) as H1.
  destruct (git_run repo git_add out_log st) as [[ok1 log1] st1].
  cbn [snd] in H1. destruct ok1; cbn [negb].
  2:{ do 4 eexists. split; [reflexivity|]. split; [exact H1 | constructor]. }
  unfold bind at 1.
  pose proof (run_command_capture_trace (in_repo repo git_status) st1) as H2.
  destruct (run_command_capture (in_repo repo git_status) st1)
    as [[rc2 out2] st2].
  cbn [snd] in H2. rewrite H1, <- app_assoc in H2. cbn [app] in H2.
  destruct (negb (rc2 =? 0)).
  { do 4 eexists. split; [reflexivity|]. split; [exact H2 | constructor]. }
  destruct (out2 =? "")%string.
  { do 4 eexists. split; [reflexivity|]. split; [exact H2 | constructor]. }
  unfold bind at 1.
  pose proof (git_run_trace repo git_commit log1 st2) as H3.
  destruct (git_run repo git_commit log1 st2) as [[ok3 log3] st3].
  cbn [snd] in H3. rewrite H2, <- app_assoc in H3. cbn [app] in H3.
  destruct ok3; cbn [negb].
  2:{ do 4 eexists. split; [reflexivity|]. split; [exact H3 | constructor]. }
  unfold bind at 1.
  pose proof (git_run_trace repo git_push log3 st3) as H4.
  destruct (git_run repo git_push log3 st3) as [[ok4 log4] st4].
  cbn [snd] in H4. rewrite H3, <- app_assoc in H4. cbn [app] in H4.
  destruct ok4; cbn [negb]; do 4 eexists;
    (split; [reflexivity|]; split; [exact H4 | constructor]).
Qed.

(** X8. The commands [git_add_commit_push] launches are add; or add
    and status; or add, status and commit; or add, status, commit and
    push, in that order and nothing else.  Its answer is false when it
    stops after add or after commit, and can be true only after add and
    status alone or after all four. *)
Theorem git_add_commit_push_outcome repo out_log st :
  exists evs,
    trace (snd (git_add_commit_push repo out_log st))
      = (trace st ++ evs)%list /\
    git_outcome repo evs (fst (fst (git_add_commit_push repo out_log st))).
Proof.
  destruct (git_add_commit_push_run repo out_log st)
    as (evs & ok & log' & st' & Hrun & Htr & Hout).
  rewrite Hrun. exists evs. split; assumption.
Qed.

(** X9. Given a manifest, [sign_hashes] launches the one gpg command,
    answers true exactly when its status is 0, and leaves the host as
    gpg left it. *)
Theorem sign_hashes_outcome repo gpg_key out_log st rc out st' :
  fs_exists (repo // "hashes.md5") (world st) = true ->
  run_command_capture (sign_command repo gpg_key) st = ((rc, out), st') ->
  let r := sign_hashes repo gpg_key out_log st in
  (fst (fst r) = true <-> rc = 0) /\
  extends (out_log ++ out) (snd (fst r)) /\
  snd r = st' /\
  trace st' = (trace st ++ [Exec (sign_command repo gpg_key)])%list.
Proof.
  intros Hman Hrun r. subst r.
  pose proof (run_command_capture_trace (sign_command repo gpg_key) st)
    as Htr.
  rewrite Hrun in Htr. cbn [snd] in Htr.
  unfold sign_hashes, bind, observe, ret. rewrite Hman. cbn [negb].
  rewrite Hrun. destruct (rc =? 0) eqn:Hrc; cbn [negb fst snd].
  - apply Z.eqb_eq in Hrc. repeat split; auto. eexists; reflexivity.
  - apply Z.eqb_neq in Hrc. repeat split; auto; try discriminate;
      try contradiction. eexists; reflexivity.
Qed.

(** X10. The key reaches gpg on signing only: verification launches the
    same command, and so does the same, for any two keys given. *)
Theorem verify_signature_ignores_key repo k1 k2 out_log st :
  k1 <> "" -> k2 <> "" ->
  verify_signature repo k1 out_log st = verify_signature repo k2 out_log st.
Proof.
  intros H1 H2.
  assert (Hcmd : verify_command repo k1 = verify_command repo k2).
  { unfold verify_command. apply String.eqb_neq in H1, H2.
    now rewrite H1, H2. }
  unfold verify_signature. now rewrite Hcmd.
Qed.

(** ** The log only grows *)

Lemma extends_refl (a : string) : extends a a.
Proof. exists "". now rewrite append_nil_r. Qed.

Lemma extends_trans (a b c : string) : extends a b -> extends b c -> extends a c.
Proof.
  intros [x ->] [y ->]. exists (x ++ y). now rewrite append_assoc.
Qed.

Lemma extends_append (a b x : string) : extends a b -> extends a (b ++ x).
Proof. intros H. apply (extends_trans H). now exists x. Qed.

(** Closes a goal [extends a (a ++ ...)]. *)
Ltac grows :=
  repeat (apply extends_append); try apply extends_refl;
  try (eexists; reflexivity).

Lemma hash_loop_extends repo ps :
  forall ofs out_log st,
  extends out_log (snd (fst (hash_loop repo ps ofs out_log st))).
Proof.
  induction ps as [|p ps IH]; intros ofs out_log st.
  - apply extends_refl.
  - destruct (hashable repo p) eqn:Hp.
    + rewrite hash_loop_step by exact Hp.
      destruct (run_command_capture (md5sum_command (path p)) st)
        as [[rc out] st1].
      destruct (negb (rc =? 0)); [cbn [fst snd]; grows | apply IH].
    + rewrite hash_loop_skip by exact Hp. apply IH.
Qed.

Lemma generate_hashes_md5_extends repo out_log st :
  match fst (generate_hashes_md5 repo out_log st) with
  | Some (_, log') => extends out_log log'
  | None => True
  end.
Proof.
  unfold generate_hashes_md5.
  destruct (ofstream_trunc (repo // "hashes.md5") (world st)) as [w|];
    [|cbn [fst snd]; grows].
  unfold bind at 1. unfold observe at 1. cbn [world].
  destruct (recursive_directory_iterator repo w) as [ps throws].
  unfold bind at 1.
  pose proof (hash_loop_extends repo ps []
                out_log {| world := w; trace := trace st |}) as Hl.
  destruct (hash_loop repo ps [] out_log {| world := w; trace := trace st |})
    as [[[ok ofs] log1] st1].
  cbn [fst snd] in Hl. unfold bind, lift, ret.
  destruct ok; [destruct throws|]; cbn [fst snd];
    [exact I | now apply extends_append | exact Hl].
Qed.

Lemma git_run_extends repo c out_log st :
  extends out_log (snd (fst (git_run repo c out_log st))).
Proof.
  unfold git_run, bind, ret.
  destruct (run_command_capture (in_repo repo c) st) as [[rc out] st1].
  destruct (negb (rc =? 0)); cbn [fst snd]; grows.
Qed.

Lemma git_add_commit_push_extends repo out_log st :
  extends out_log (snd (fst (git_add_commit_push repo out_log st))).
Proof.
  unfold git_add_commit_push. unfold bind at 1.
  pose proof (git_run_extends repo git_add out_log st) as H1.
  destruct (git_run repo git_add out_log st) as [[ok1 log1] st1].
  cbn [fst snd] in H1. destruct ok1; cbn [negb]; [|exact H1].
  unfold bind at 1.
  destruct (run_command_capture (in_repo repo git_status) st1)
    as [[rc2 out2] st2].
  destruct (negb (rc2 =? 0)); [now apply extends_append|].
  destruct (out2 =? "")%string; [now apply extends_append|].
  unfold bind at 1.
  pose proof (git_run_extends repo git_commit log1 st2) as H3.
  destruct (git_run repo git_commit log1 st2) as [[ok3 log3] st3].
  cbn [fst snd] in H3. pose proof (extends_trans H1 H3) as H13.
  destruct ok3; cbn [negb]; [|exact H13].
  unfold bind at 1.
  pose proof (git_run_extends repo git_push log3 st3) as H4.
  destruct (git_run repo git_push log3 st3) as [[ok4 log4] st4].
  cbn [fst snd] in H4. pose proof (extends_trans H13 H4) as H14.
  destruct ok4; cbn [negb]; [now apply extends_append | exact H14].
Qed.

(** X11. Each of the five stages, when it returns, gives back the log
    it was given with text appended: none rewrites or drops what was
    logged. *)
Theorem stages_extend_log repo gpg_key out_log st :
  match fst (generate_hashes_md5 repo out_log st) with
  | Some (_, log') => extends out_log log'
  | None => True
  end /\
  extends out_log (snd (fst (sign_hashes repo gpg_key out_log st))) /\
  extends out_log (snd (fst (git_add_commit_push repo out_log st))) /\
  extends out_log (snd (fst (verify_signature repo gpg_key out_log st))) /\
  extends out_log (snd (fst (verify_md5sum repo out_log st))).
Proof.
  split; [apply generate_hashes_md5_extends|].
  split.
  { unfold sign_hashes, bind, observe, ret.
    destruct (fs_exists _ _); cbn [negb]; [|cbn [fst snd]; grows].
    destruct (run_command_capture _ _) as [[rc out] st1].
    destruct (negb (rc =? 0)); cbn [fst snd]; grows. }
  split; [apply git_add_commit_push_extends|].
  split.
  { unfold verify_signature, bind, observe, ret.
    destruct (_ && _)%bool; cbn [negb]; [|cbn [fst snd]; grows].
    destruct (run_command_capture _ _) as [[rc out] st1].
    destruct (negb (rc =? 0)); [cbn [fst snd]; grows|].
    destruct (Str.contains "Good signature" out); cbn [fst snd]; grows. }
  unfold verify_md5sum, bind, observe, ret.
  destruct (fs_exists _ _); cbn [negb]; [|cbn [fst snd]; grows].
  destruct (run_command_capture _ _) as [[rc out] st1].
  destruct (rc =? 0); cbn [fst snd]; grows.
Qed.

Lemma publish_repo_extends gpg_key r log_text st :
  match fst (publish_repo gpg_key r log_text st) with
  | Some log' => extends log_text log'
  | None => True
  end.
Proof.
  unfold publish_repo. cbv zeta. unfold bind at 1.
  destruct (generate_hashes_md5 r "" st) as [[[ok1 tmp1]|] st0];
    [|exact I].
  unfold bind at 1. unfold record at 1. cbv beta iota.
  set (st1 := {| world := world st0;
                 trace := (trace st0 ++ [Ran Generate r ok1])%list |}).
  destruct ok1; cbn [negb]; [|cbn [fst ret]; unfold ret; cbn [fst]; grows].
  unfold bind at 1.
  destruct (staged Sign r (sign_hashes r gpg_key "") st1) as [[ok2 tmp2] st2].
  destruct ok2; cbn [negb]; [|unfold ret; cbn [fst]; grows].
  unfold bind at 1.
  destruct (staged Publish r (git_add_commit_push r "") st2)
    as [[ok3 tmp3] st3].
  destruct ok3; cbn [negb]; unfold ret; cbn [fst]; grows.
Qed.

Lemma verify_repo_extends gpg_key r log_text st :
  extends log_text (fst (verify_repo gpg_key r log_text st)).
Proof.
  destruct (verify_repo_report gpg_key r log_text st)
    as (rep & st' & Hrun & _).
  rewrite Hrun. cbn [fst]. grows.
Qed.

Lemma publish_loop_extends gpg_key (repos : list string) :
  forall (log_text : string) st,
  match fst (publish_loop gpg_key repos log_text st) with
  | Some log' => extends log_text log'
  | None => True
  end.
Proof.
  induction repos as [|r rs IH]; intros log_text st.
  - apply extends_refl.
  - cbn [publish_loop]. unfold bind.
    pose proof (publish_repo_extends gpg_key r log_text st) as Hr.
    destruct (publish_repo gpg_key r log_text st) as [[log1|] st1];
      [|exact I].
    cbn [fst] in Hr. specialize (IH log1 st1).
    destruct (fst (publish_loop gpg_key rs log1 st1)); [|exact I].
    exact (extends_trans Hr IH).
Qed.

Lemma for_each_extends (body : string -> string -> M World string) :
  (forall r log_text st, extends log_text (fst (body r log_text st))) ->
  forall repos log_text st,
  extends log_text (fst (for_each body repos log_text st)).
Proof.
  intros Hbody repos. induction repos as [|r rs IH]; intros log_text st.
  - apply extends_refl.
  - cbn [for_each]. unfold bind.
    pose proof (Hbody r log_text st) as Hr.
    destruct (body r log_text st) as [log1 st1]. cbn [fst] in Hr.
    exact (extends_trans Hr (IH log1 st1)).
Qed.

(** X12. A pass of the window loop that returns gives back [log_text]
    with text appended, whichever buttons were pressed and whatever the
    stages did: the log is never cleared nor rewritten. *)
Theorem frame_extends_log
    (root_path : string) gpg_key (generar verificar : bool)
    (log_text : string) st :
  match fst (frame root_path gpg_key generar verificar log_text st) with
  | Some (_, log') => extends log_text log'
  | None => True
  end.
Proof.
  unfold frame. unfold bind at 1.
  destruct (detect_repos root_path st) as [repos st0].
  assert (Hp : forall l s,
    match fst ((if generar then publish_all repos gpg_key l
                else ret (Some l)) s) with
    | Some l' => extends l l'
    | None => True
    end).
  { intros l s. destruct generar; [|apply extends_refl].
    unfold publish_all, bind, ret.
    pose proof (publish_loop_extends gpg_key repos
                  (l ++ "=== Generar & Firmar ===" ++ nl) s) as H.
    destruct (publish_loop _ _ _ _) as [[l1|] s1]; [|exact I].
    cbn [fst] in *.
    apply extends_append. refine (extends_trans _ H). grows. }
  assert (Hv : forall l s,
    extends l (fst ((if verificar then verify_all repos gpg_key l
                     else ret l) s))).
  { intros l s. destruct verificar; [|apply extends_refl].
    unfold verify_all, bind, ret.
    pose proof (for_each_extends (verify_repo gpg_key)
                  (verify_repo_extends gpg_key) repos
                  (l ++ "=== Verificar ===" ++ nl) s) as H.
    destruct (for_each _ _ _ _) as [l1 s1]. cbn [fst] in *.
    apply extends_append. refine (extends_trans _ H). grows. }
  unfold bind at 1. specialize (Hp log_text st0).
  destruct ((if generar then publish_all repos gpg_key log_text
             else ret (Some log_text)) st0) as [[l1|] s1]; [|exact I].
  cbn [fst] in Hp.
  unfold bind at 1. specialize (Hv l1 s1).
  destruct ((if verificar then verify_all repos gpg_key l1 else ret l1) s1)
    as [l2 s2].
  cbn [fst] in Hv.
  unfold ret. cbn [fst snd]. exact (extends_trans Hp Hv).
Qed.

(** ** What verification launches *)

Lemma verify_signature_events repo gpg_key out_log st :
  exists evs,
    trace (snd (verify_signature repo gpg_key out_log st))
      = (trace st ++ evs)%list /\
    (evs = [] \/ evs = [Exec (verify_command repo gpg_key)]).
Proof.
  unfold verify_signature, bind, observe, ret.
  destruct (_ && _)%bool; cbn [negb].
  - pose proof (run_command_capture_trace (verify_command repo gpg_key) st)
      as Htr.
    destruct (run_command_capture (verify_command repo gpg_key) st)
      as [[rc out] st1]. cbn [snd] in Htr.
    eexists. split; [|right; reflexivity].
    destruct (negb (rc =? 0)); [exact Htr|].
    destruct (Str.contains "Good signature" out); exact Htr.
  - exists []. split; [now rewrite app_nil_r | now left].
Qed.

Lemma verify_md5sum_events repo out_log st :
  exists evs,
    trace (snd (verify_md5sum repo out_log st)) = (trace st ++ evs)%list /\
    (evs = [] \/ evs = [Exec (in_repo repo "md5sum -c hashes.md5")]).
Proof.
  unfold verify_md5sum, bind, observe, ret.
  destruct (fs_exists _ _); cbn [negb].
  - pose proof (run_command_capture_trace
                  (in_repo repo "md5sum -c hashes.md5") st) as Htr.
    destruct (run_command_capture (in_repo repo "md5sum -c hashes.md5") st)
      as [[rc out] st1]. cbn [snd] in Htr.
    eexists. split; [|right; reflexivity].
    destruct (rc =? 0); exact Htr.
  - exists []. split; [now rewrite app_nil_r | now left].
Qed.

Lemma staged_trace (s : Stage) (r : string) (c : M World (bool * string)) st :
  trace (snd (staged s r c st))
    = (trace (snd (c st)) ++ [Ran s r (fst (fst (staged s r c st)))])%list.
Proof.
  unfold staged, bind, record, ret. now destruct (c st) as [res st1].
Qed.

Lemma verify_repo_events (repos : list string) gpg_key r log_text st :
  In r repos ->
  exists evs,
    trace (snd (verify_repo gpg_key r log_text st)) = (trace st ++ evs)%list /\
    Forall (verification_event repos gpg_key) evs.
Proof.
  intros Hin. unfold verify_repo. cbv zeta. unfold bind at 1.
  pose proof (staged_trace VerifySignature r
                (verify_signature r gpg_key "") st) as H1.
  destruct (verify_signature_events r gpg_key "" st) as (e1 & He1 & Hc1).
  rewrite He1 in H1.
  destruct (staged VerifySignature r (verify_signature r gpg_key "") st)
    as [[ok1 tmp1] st1]. cbn [fst snd] in H1.
  unfold bind at 1.
  pose proof (staged_trace VerifyIntegrity r (verify_md5sum r "") st1) as H2.
  destruct (verify_md5sum_events r "" st1) as (e2 & He2 & Hc2).
  rewrite He2 in H2.
  destruct (staged VerifyIntegrity r (verify_md5sum r "") st1)
    as [[ok2 tmp2] st2]. cbn [fst snd] in H2.
  unfold ret. cbn [snd].
  exists ((e1 ++ [Ran VerifySignature r ok1])
            ++ e2 ++ [Ran VerifyIntegrity r ok2])%list.
  split; [now rewrite H2, H1, <- !app_assoc|].
  assert (Hs : verification_event repos gpg_key
                 (Exec (verify_command r gpg_key))) by (cbn; eauto).
  assert (Hm : verification_event repos gpg_key
                 (Exec (in_repo r "md5sum -c hashes.md5"))) by (cbn; eauto).
  assert (Hr1 : verification_event repos gpg_key
                  (Ran VerifySignature r ok1)) by (cbn; auto).
  assert (Hr2 : verification_event repos gpg_key
                  (Ran VerifyIntegrity r ok2)) by (cbn; auto).
  destruct Hc1 as [-> | ->]; destruct Hc2 as [-> | ->];
    repeat (apply Forall_app; split); repeat constructor; assumption.
Qed.

(** X13. The second button launches nothing but, for repositories of
    the list, the gpg verification command and [md5sum -c hashes.md5]
    inside the repository: it signs nothing, regenerates no manifest
    and calls no git. *)
Theorem verify_all_only_verifies (repos : list string) gpg_key
    (log_text : string) st :
  exists evs,
    trace (snd (verify_all repos gpg_key log_text st))
      = (trace st ++ evs)%list /\
    Forall (verification_event repos gpg_key) evs.
Proof.
  unfold verify_all, bind, ret.
  assert (Hloop : forall rs, incl rs repos -> forall l s, exists evs,
    trace (snd (for_each (verify_repo gpg_key) rs l s))
      = (trace s ++ evs)%list /\
    Forall (verification_event repos gpg_key) evs).
  { induction rs as [|r rs IH]; intros Hincl l s.
    - exists []. cbn. split; [now rewrite app_nil_r | constructor].
    - cbn [for_each]. unfold bind.
      destruct (@verify_repo_events repos gpg_key r l s) as (e1 & He1 & Hf1);
        [apply Hincl; now left|].
      destruct (verify_repo gpg_key r l s) as [l1 s1]. cbn [snd] in He1.
      destruct (IH (fun x Hx => Hincl x (or_intror Hx)) l1 s1)
        as (e2 & He2 & Hf2).
      exists (e1 ++ e2)%list. split.
      + now rewrite He2, He1, <- app_assoc.
      + apply Forall_app. now split. }
  destruct (Hloop repos (incl_refl _)
              (log_text ++ "=== Verificar ===" ++ nl) st)
    as (evs & Hevs & Hf).
  destruct (for_each _ _ _ _) as [l1 s1]. cbn [snd] in *.
  exists evs. now split.
Qed.

(** ** Edge cases *)

Lemma hash_loop_nothing repo ps :
  forall ofs out_log st,
  filter (hashable repo) ps = [] ->
  hash_loop repo ps ofs out_log st = ((true, ofs, out_log), st).
Proof.
  induction ps as [|p ps IH]; intros ofs out_log st Hnone; [reflexivity|].
  cbn [filter] in Hnone. destruct (hashable repo p) eqn:Hp; [discriminate|].
  rewrite hash_loop_skip by exact Hp. now apply IH.
Qed.

(** X14. A repository in which nothing is hashable (it is empty, or
    holds only files under [.git...], the manifest and the signature),
    and whose traversal reaches its end, gets an empty manifest and the
    answer true, with no command launched. *)
Theorem generate_nothing_to_hash repo out_log st w ps :
  ofstream_trunc (repo // "hashes.md5") (world st) = Some w ->
  recursive_directory_iterator repo w = (ps, false) ->
  filter (hashable repo) ps = [] ->
  generate_hashes_md5 repo out_log st =
    (Some (true, out_log ++ "Generado: " ++ repo // "hashes.md5" ++ nl),
     {| world := ofstream_close (repo // "hashes.md5") "" w;
        trace := trace st |}).
Proof.
  intros Hopen Hiter Hnone. unfold generate_hashes_md5. rewrite Hopen.
  unfold bind, observe, lift. cbn [world]. rewrite Hiter.
  rewrite hash_loop_nothing by exact Hnone. reflexivity.
Qed.

(** X15. With both files present, the signature is reported valid
    exactly when gpg returned 0 and the words [Good signature], in this
    case, occur somewhere in its output, whatever stands around them. *)
Theorem verify_signature_valid_iff_occurs repo gpg_key out_log st rc out st' :
  fs_exists (repo // "hashes.md5.asc") (world st) = true ->
  fs_exists (repo // "hashes.md5") (world st) = true ->
  run_command_capture (verify_command repo gpg_key) st = ((rc, out), st') ->
  fst (fst (verify_signature repo gpg_key out_log st)) = true <->
  rc = 0 /\ exists a b, out = a ++ "Good signature" ++ b.
Proof.
  intros Hasc Hman Hrun. rewrite <- contains_spec.
  unfold verify_signature, bind, observe, ret.
  rewrite Hasc, Hman. cbn [andb negb]. rewrite Hrun.
  destruct (rc =? 0) eqn:Hrc; cbn [negb fst].
  - apply Z.eqb_eq in Hrc.
    destruct (Str.contains "Good signature" out); cbn [fst]; tauto.
  - apply Z.eqb_neq in Hrc. split; [discriminate | tauto].
Qed.

(** X16. When md5sum returns a status other than 0 for a hashable
    entry, the files before it having been gone through, the log
    [generate_hashes_md5] gives back is the log it was given followed
    by the name of that file and by what md5sum wrote; nothing is said
    of the files hashed before. *)
Theorem generate_failure_is_logged
    repo out_log st w l1 p l2 throws ofs1 log1 st1 rc out st2 :
  ofstream_trunc (repo // "hashes.md5") (world st) = Some w ->
  recursive_directory_iterator repo w = ((l1 ++ p :: l2)%list, throws) ->
  hash_loop repo l1 [] out_log {| world := w; trace := trace st |}
    = ((true, ofs1, log1), st1) ->
  hashable repo p = true ->
  run_command_capture (md5sum_command (path p)) st1 = ((rc, out), st2) ->
  rc <> 0 ->
  fst (generate_hashes_md5 repo out_log st) =
    Some (false,
          out_log ++ "md5sum fallo para " ++ path p ++ " :" ++ nl
            ++ out ++ nl).
Proof.
  intros Hopen Hiter Hbefore Hp Hrun Hrc.
  pose proof (hash_loop_success repo l1 [] out_log
                {| world := w; trace := trace st |}) as Hs.
  cbv zeta in Hs. rewrite Hbefore in Hs. cbn [fst snd] in Hs.
  destruct (Hs eq_refl) as (_ & _ & _ & Hlog). subst log1.
  unfold generate_hashes_md5. rewrite Hopen.
  unfold bind, observe, lift. cbn [world].
  rewrite Hiter, hash_loop_app, Hbefore.
  rewrite hash_loop_step by exact Hp. rewrite Hrun.
  apply Z.eqb_neq in Hrc. rewrite Hrc. reflexivity.
Qed.

(** ** What the first button launches *)





End Properties.

(** * Runs on the scripted host *)

Import Sim.

(** C5, at a run. Asked to sign the manifest of [/w/r] without a key,
    [sign_hashes] launches gpg with [--armor], [--output] and [--sign];
    the command asks nowhere for a detached signature, while
    [verify_signature] hands gpg the signature file and the manifest,
    as for a detached one. *)
Theorem sign_hashes_signature_not_detached :
  let st := start (disk [("", 0)]) in
  let cmd := "gpg --armor --output " ++ quoted "/w/r/hashes.md5.asc"
               ++ " --sign " ++ quoted "/w/r/hashes.md5" in
  sign_hashes "/w/r" "" "" st
    = ((true, "Firmado: /w/r/hashes.md5.asc" ++ nl),
       {| world := disk []; trace := [Exec cmd] |}) /\
  Str.contains "--detach" cmd = false /\
  Str.contains " -b" cmd = false /\
  verify_command "/w/r" ""
    = "gpg --verify " ++ quoted "/w/r/hashes.md5.asc" ++ " "
        ++ quoted "/w/r/hashes.md5".
Proof. vm_compute. repeat split. Qed.


(** C2, at a run.  Under [/x] the traversal of [a] meets a directory it
    cannot read, after one file was hashed: the exception leaves
    [generate_hashes_md5], the loop and the handler.  No stage is put
    on the trace and nothing is launched for [b], which comes after
    [a], though [b] alone goes through its three stages; the pass of
    the window loop does not return. *)
Theorem publish_all_ends_at_unreadable_directory :
  let answers := [("d41d8cd98f00b204e9800998ecf8427e  /x/a/f.txt" ++ nl, 0);
                  ("5d41402abc4b2a76b9719d911017c592  /x/b/g.txt" ++ nl, 0);
                  ("", 0); ("", 0); ("", 0)] in
  fst (detect_repos "/x" (start (disk answers))) = ["/x/a"; "/x/b"] /\
  fst (publish_all ["/x/a"; "/x/b"] "" "" (start (disk answers))) = None /\
  trace (snd (publish_all ["/x/a"; "/x/b"] "" "" (start (disk answers))))
    = [Exec (md5sum_command "/x/a/f.txt")] /\
  fst (frame "/x" "" true false "" (start (disk answers))) = None /\
  stages (trace (snd (publish_all ["/x/b"] "" ""
                        (start (disk (tl answers))))))
    = [Ran Generate "/x/b" true; Ran Sign "/x/b" true;
       Ran Publish "/x/b" true].
Proof. vm_compute. repeat split. Qed.

(** C7, at a run.  A repository holds a file git does not track.  Its
    first publication commits and pushes the manifest and the
    signature.  The second, with no file changed since, finds the
    status not empty, for the untracked file, launches a commit, which
    has nothing added and fails, and answers false. *)
Theorem git_second_publication_fails :
  let first := git_add_commit_push "/w/r" "" (start (disk twice_untracked)) in
  let second := git_add_commit_push "/w/r" "" (snd first) in
  fst (fst first) = true /\
  fst second
    = (false,
       "nothing added to commit but untracked files present" ++ nl
         ++ "Comando git fallo: " ++ git_commit ++ nl) /\
  trace (snd second)
    = (trace (snd first)
         ++ [Exec (in_repo "/w/r" git_add); Exec (in_repo "/w/r" git_status);
             Exec (in_repo "/w/r" git_commit)])%list.
Proof. vm_compute. repeat split. Qed.

(** [/w/plain] has neither manifest nor signature: verification fails
    with no command launched. *)
Lemma verify_signature_missing_file_run :
  verify_signature "/w/plain" "" "" (start (disk [("unused", 0)]))
    = ((false, "Faltan archivos de firma o hashes en /w/plain" ++ nl),
       start (disk [("unused", 0)])).
Proof.
  apply (@verify_signature_missing_file World host "/w/plain" "" ""
           (start (disk [("unused", 0)]))).
  left. reflexivity.
Defined.


(** Two publications in a row: the first commits and pushes, the second
    finds nothing to commit. *)
Lemma git_nothing_to_commit_run :
  let st := snd (git_add_commit_push "/w/r" "" (start (disk twice))) in
  let st1 := {| world := disk [("", 0)];
                trace := trace st ++ [Exec (in_repo "/w/r" git_add)] |} in
  let st2 := {| world := disk [];
                trace := trace st1 ++ [Exec (in_repo "/w/r" git_status)] |} in
  fst (fst (git_add_commit_push "/w/r" "" (start (disk twice)))) = true /\
  git_add_commit_push "/w/r" "" st
    = ((true, "" ++ "" ++ "No hay cambios para commitear en " ++ "/w/r" ++ nl),
       st2) /\
  trace st2 = (trace st ++ [Exec (in_repo "/w/r" git_add);
                            Exec (in_repo "/w/r" git_status)])%list.
Proof.
  intros st st1 st2. split; [vm_compute; reflexivity|].
  apply (@git_nothing_to_commit World host "/w/r" "" st "" st1 st2);
    vm_compute; reflexivity.
Defined.

(** The top-level [.gitignore] of [/w/r] is passed over. *)
Lemma git_prefixed_file_omitted_run :
  fs_relative (World := World) "/w/r/.gitignore" "/w/r" = ".gitignore" /\
  hash_loop "/w/r" repo_r [] "" (start (disk [(md5_a, 0); (md5_b, 0); (md5_z, 0)]))
    = hash_loop "/w/r"
        ([dir "/w/r/.git"; file "/w/r/.git/config"]
           ++ [file "/w/r/a.txt"; file "/w/r/hashes.md5";
               file "/w/r/hashes.md5.asc"; dir "/w/r/src";
               file "/w/r/src/b.c"; file "/w/r/z.txt"])
        [] "" (start (disk [(md5_a, 0); (md5_b, 0); (md5_z, 0)])).
Proof.
  split; [reflexivity|].
  apply (@git_prefixed_file_omitted World host "/w/r"
           [dir "/w/r/.git"; file "/w/r/.git/config"]
           (file "/w/r/.gitignore")
           [file "/w/r/a.txt"; file "/w/r/hashes.md5";
            file "/w/r/hashes.md5.asc"; dir "/w/r/src";
            file "/w/r/src/b.c"; file "/w/r/z.txt"]
           [] "" (start (disk [(md5_a, 0); (md5_b, 0); (md5_z, 0)]))
           eq_refl eq_refl).
Defined.

(** md5sum fails on [src/b.c], the second file hashed: the manifest
    left holds the entry of [a.txt] alone, and [z.txt] is not hashed. *)
Lemma generate_aborts_on_hash_failure_run :
  let r := generate_hashes_md5 "/w/r" ""
             (start (disk [(md5_a, 0); (denied, 256); (md5_z, 0)])) in
  option_map fst (fst r) = Some false /\
  trace (snd r) = [Exec (md5sum_command "/w/r/a.txt");
                   Exec (md5sum_command "/w/r/src/b.c")] /\
  file_contents "/w/r/hashes.md5" (world (snd r))
    = Some ("0cc175b9c0f1b6a831c399e269772661  ./a.txt" ++ nl).
Proof.
  apply (@generate_aborts_on_hash_failure World host "/w/r" ""
           (start (disk [(md5_a, 0); (denied, 256); (md5_z, 0)]))
           (put "/w/r/hashes.md5" ""
              (disk [(md5_a, 0); (denied, 256); (md5_z, 0)]))
           before_b (file "/w/r/src/b.c") [file "/w/r/z.txt"] false
           [mkEntry "0cc175b9c0f1b6a831c399e269772661" "./a.txt"] ""
           {| world := put "/w/r/hashes.md5" "" (disk [(denied, 256); (md5_z, 0)]);
              trace := [Exec (md5sum_command "/w/r/a.txt")] |}
           256 denied
           {| world := put "/w/r/hashes.md5" "" (disk [(md5_z, 0)]);
              trace := [Exec (md5sum_command "/w/r/a.txt");
                        Exec (md5sum_command "/w/r/src/b.c")] |}
           eq_refl eq_refl eq_refl eq_refl eq_refl).
  - intros H; discriminate H.
  - intros H; discriminate H.
  - reflexivity.
  - intros H; discriminate H.
Defined.


(** ** Further runs *)

(** gpg writes [Good signature] but returns 2: not valid. *)
Example verify_signature_bad_status_run :
  fst (verify_signature "/w/r" "" ""
         (start (disk [("gpg: Good signature from K" ++ nl
                          ++ "gpg: BAD signature from L", 2)])))
    = (false,
       "gpg: Good signature from K" ++ nl ++ "gpg: BAD signature from L"
         ++ "gpg verify returned rc=2" ++ nl).
Proof. vm_compute. reflexivity. Qed.

(** The first button over [/w/s], whose manifest cannot be created, and
    then [/w/r]: [s] stops at Generate, [r] goes to the end. *)
Example publish_all_run :
  stages (trace (snd (publish_all ["/w/s"; "/w/r"] "" ""
                        (start (disk ([(md5_a, 0); (md5_b, 0); (md5_z, 0);
                                       ("", 0)] ++ twice))))))
    = [ Ran Generate "/w/s" false;
        Ran Generate "/w/r" true; Ran Sign "/w/r" true;
        Ran Publish "/w/r" true ].
Proof. vm_compute. reflexivity. Qed.

(** The second button over [/w/plain], which has no manifest, and
    [/w/r], in either order: FAIL for the first, OK for the second. *)
Example verify_all_run :
  let answers := [("gpg: Good signature from K" ++ nl, 0);
                  ("./a.txt: OK" ++ nl, 0)] in
  let verdicts (repos : list string) :=
    stages (trace (snd (verify_all repos "" "" (start (disk answers))))) in
  verdicts ["/w/plain"; "/w/r"]
    = [ Ran VerifySignature "/w/plain" false;
        Ran VerifyIntegrity "/w/plain" false;
        Ran VerifySignature "/w/r" true; Ran VerifyIntegrity "/w/r" true ] /\
  verdicts ["/w/r"; "/w/plain"]
    = [ Ran VerifySignature "/w/r" true; Ran VerifyIntegrity "/w/r" true;
        Ran VerifySignature "/w/plain" false;
        Ran VerifyIntegrity "/w/plain" false ].
Proof. vm_compute. split; reflexivity. Qed.

(** A signature that fails does not keep the manifest from being
    checked. *)
Example verify_repo_run :
  verify_repo "" "/w/r" ""
    (start (disk [("gpg: BAD signature from K" ++ nl, 1);
                  ("./a.txt: OK" ++ nl, 0)]))
  = ("Verificando: /w/r" ++ nl
       ++ "gpg: BAD signature from K" ++ nl
       ++ "gpg verify returned rc=1" ++ nl
       ++ "./a.txt: OK" ++ nl
       ++ "Integridad OK en /w/r" ++ nl
       ++ "Resultado: firma=FAIL, md5=OK" ++ nl,
     {| world := disk [];
        trace := [ Exec (verify_command "/w/r" "");
                   Ran VerifySignature "/w/r" false;
                   Exec (in_repo "/w/r" "md5sum -c hashes.md5");
                   Ran VerifyIntegrity "/w/r" true ] |}).
Proof. vm_compute. reflexivity. Qed.

(** A whole manifest: [.git/config], [.gitignore], the old manifest and
    the old signature have no entry. *)
Example generate_hashes_md5_run :
  let r := generate_hashes_md5 "/w/r" ""
             (start (disk [(md5_a, 0); (md5_b, 0); (md5_z, 0)])) in
  fst r = Some (true, "Generado: /w/r/hashes.md5" ++ nl) /\
  file_contents "/w/r/hashes.md5" (world (snd r))
    = Some ("0cc175b9c0f1b6a831c399e269772661  ./a.txt" ++ nl
              ++ "92eb5ffee6ae2fec3ad71c777531578f  ./src/b.c" ++ nl
              ++ "fbade9e36a3f36d3d676c1b808451dd7  ./z.txt" ++ nl).
Proof. vm_compute. split; reflexivity. Qed.

(** ** Runs of the further properties *)

(** The manifest of [/w/s] cannot be created. *)
Lemma generate_cannot_create_run :
  generate_hashes_md5 "/w/s" "" (start (disk [(md5_a, 0)]))
    = (Some (false,
             "" ++ "Error: no se puede crear " ++ "/w/s" // "hashes.md5" ++ nl),
       start (disk [(md5_a, 0)])).
Proof.
  apply (@generate_cannot_create World host "/w/s" ""
           (start (disk [(md5_a, 0)]))).
  reflexivity.
Defined.

(** A whole generation over [/w/r]: three files hashed, three lines. *)
Lemma generate_success_run :
  let st := start (disk [(md5_a, 0); (md5_b, 0); (md5_z, 0)]) in
  let r := generate_hashes_md5 "/w/r" "" st in
  exists w ps hashed st1,
    ofstream_trunc ("/w/r" // "hashes.md5") (world st) = Some w /\
    recursive_directory_iterator "/w/r" w = (ps, false) /\
    hash_run (filter (hashable "/w/r") ps) {| world := w; trace := trace st |}
      = ((hashed, None), st1) /\
    map fst hashed = filter (hashable "/w/r") ps /\
    file_contents ("/w/r" // "hashes.md5") (world (snd r))
      = Some (manifest_text (flat_map (entry_for "/w/r") hashed)) /\
    trace (snd r)
      = (trace st ++ map md5sum_of (filter (hashable "/w/r") ps))%list /\
    "Generado: /w/r/hashes.md5" ++ nl
      = "" ++ "Generado: " ++ "/w/r" // "hashes.md5" ++ nl.
Proof.
  intros st r.
  apply (@generate_success World host "/w/r" "" st
           ("Generado: /w/r/hashes.md5" ++ nl) (snd r)).
  vm_compute. reflexivity.
Defined.

(** When md5sum fails on [src/b.c], [z.txt] is not handed to it, and
    [.gitignore] never is. *)
Lemma generate_hashes_only_hashable_run :
  let st := start (disk [(md5_a, 0); (denied, 256); (md5_z, 0)]) in
  exists n,
    trace (snd (generate_hashes_md5 "/w/r" "" st))
      = (trace st
           ++ map md5sum_of
                (firstn n
                   (filter (hashable "/w/r")
                      (fst (recursive_directory_iterator "/w/r"
                              (put "/w/r/hashes.md5" "" (world st)))))))%list.
Proof.
  intros st.
  apply (@generate_hashes_only_hashable World host "/w/r" "" st
           (put "/w/r/hashes.md5" "" (world st))).
  reflexivity.
Defined.


Lemma manifest_lines_start_with_hash_run :
  let st := start (disk [(md5_a, 0); (md5_b, 0); (md5_z, 0)]) in
  let es := [mkEntry "0cc175b9c0f1b6a831c399e269772661" "./a.txt";
             mkEntry "92eb5ffee6ae2fec3ad71c777531578f" "./src/b.c";
             mkEntry "fbade9e36a3f36d3d676c1b808451dd7" "./z.txt"] in
  file_contents "/w/r/hashes.md5"
    (world (snd (generate_hashes_md5 "/w/r" "" st)))
    = Some (manifest_text es) /\
  lines_of (manifest_text es) = map entry_body es /\
  Forall (fun l => exists hash,
            Str.first_token l = Some hash /\ hash <> "" /\
            String.prefix hash l = true)
         (lines_of (manifest_text es)).
Proof.
  intros st es.
  pose proof (@manifest_lines_start_with_hash World host "/w/r" "" st
                (put "/w/r/hashes.md5" "" (world st)) repo_r false
                eq_refl eq_refl) as H.
  cbv zeta in H. destruct H as (_ & Hfile & Hlines).
  split; [apply Hfile; discriminate|].
  apply Hlines. intros p Hp _.
  repeat (destruct Hp as [<- | Hp]; [reflexivity|]). contradiction.
Defined.


(** [/w/plain] has no manifest to check. *)
Lemma verify_md5sum_missing_manifest_run :
  verify_md5sum "/w/plain" "" (start (disk [("unused", 0)]))
    = ((false, "" ++ "No existe " ++ "/w/plain" // "hashes.md5" ++ nl),
       start (disk [("unused", 0)])).
Proof.
  apply (@verify_md5sum_missing_manifest World host "/w/plain" ""
           (start (disk [("unused", 0)]))).
  reflexivity.
Defined.

(** md5sum finds a file changed and returns 1. *)
Lemma verify_md5sum_status_run :
  let st := start (disk [("./a.txt: FAILED" ++ nl, 1)]) in
  let st' := {| world := disk [];
                trace := [Exec (in_repo "/w/r" "md5sum -c hashes.md5")] |} in
  let r := verify_md5sum "/w/r" "" st in
  (fst (fst r) = true <-> 1 = 0) /\
  extends ("" ++ "./a.txt: FAILED" ++ nl) (snd (fst r)) /\
  snd r = st' /\
  trace st' = (trace st ++ [Exec (in_repo "/w/r" "md5sum -c hashes.md5")])%list.
Proof.
  intros st st' r.
  apply (@verify_md5sum_status World host "/w/r" "" st 1
           ("./a.txt: FAILED" ++ nl) st'); reflexivity.
Defined.

(** With no program to answer, nothing succeeds. *)
Lemma stages_fail_without_popen_run :
  let st := start (disk []) in
  fst (fst (sign_hashes "/w/r" "" "" st)) = false /\
  fst (fst (git_add_commit_push "/w/r" "" st)) = false /\
  fst (fst (verify_signature "/w/r" "" "" st)) = false /\
  fst (fst (verify_md5sum "/w/r" "" st)) = false.
Proof.
  intros st.
  apply (@stages_fail_without_popen World host "/w/r" "" "" st).
  intros cmd. reflexivity.
Defined.

(** gpg cannot find the secret key and returns 2. *)
Lemma sign_hashes_outcome_run :
  let st := start (disk [("gpg: no default secret key" ++ nl, 2)]) in
  let st' := {| world := disk [];
                trace := [Exec (sign_command "/w/r" "K")] |} in
  let r := sign_hashes "/w/r" "K" "" st in
  (fst (fst r) = true <-> 2 = 0) /\
  extends ("" ++ "gpg: no default secret key" ++ nl) (snd (fst r)) /\
  snd r = st' /\
  trace st' = (trace st ++ [Exec (sign_command "/w/r" "K")])%list.
Proof.
  intros st st' r.
  apply (@sign_hashes_outcome World host "/w/r" "K" "" st 2
           ("gpg: no default secret key" ++ nl) st'); reflexivity.
Defined.

Lemma verify_signature_ignores_key_run :
  verify_signature "/w/r" "A1B2" ""
    (start (disk [("gpg: Good signature from K", 0)]))
  = verify_signature "/w/r" "C3D4" ""
      (start (disk [("gpg: Good signature from K", 0)])).
Proof.
  apply (@verify_signature_ignores_key World host "/w/r" "A1B2" "C3D4" ""
           (start (disk [("gpg: Good signature from K", 0)])));
    discriminate.
Defined.

(** In [/b] nothing is hashable: the manifest is left empty. *)
Lemma generate_nothing_to_hash_run :
  generate_hashes_md5 "/b" "" (start bare)
    = (Some (true, "" ++ "Generado: " ++ "/b" // "hashes.md5" ++ nl),
       {| world := ofstream_close ("/b" // "hashes.md5") ""
                     (put "/b/hashes.md5" "" bare);
          trace := trace (start bare) |}).
Proof.
  apply (@generate_nothing_to_hash World host "/b" "" (start bare)
           (put "/b/hashes.md5" "" bare)
           [dir "/b/.git"; file "/b/.git/HEAD"; file "/b/.gitignore";
            file "/b/hashes.md5"]); reflexivity.
Defined.

(** The words stand in the middle of a line and gpg returned 0. *)
Lemma verify_signature_valid_iff_occurs_run :
  fst (fst (verify_signature "/w/r" "" ""
              (start (disk [("gpg: Good signature from K", 0)])))) = true <->
  0 = 0 /\ exists a b,
    "gpg: Good signature from K" = a ++ "Good signature" ++ b.
Proof.
  apply (@verify_signature_valid_iff_occurs World host "/w/r" "" ""
           (start (disk [("gpg: Good signature from K", 0)]))
           0 "gpg: Good signature from K"
           {| world := disk [];
              trace := [Exec (verify_command "/w/r" "")] |});
    reflexivity.
Defined.

(** [/w/plain] has no manifest to sign. *)
Lemma sign_hashes_missing_manifest_run :
  sign_hashes "/w/plain" "" "" (start (disk [("unused", 0)]))
    = ((false, "" ++ "No existe " ++ "/w/plain" // "hashes.md5" ++ nl),
       start (disk [("unused", 0)])).
Proof.
  apply (@sign_hashes_missing_manifest World host "/w/plain" "" ""
           (start (disk [("unused", 0)]))).
  reflexivity.
Defined.

(** md5sum may not read [src/b.c]: the log says so, and only that. *)
Lemma generate_failure_is_logged_run :
  fst (generate_hashes_md5 "/w/r" ""
         (start (disk [(md5_a, 0); (denied, 256); (md5_z, 0)])))
  = Some (false,
          "" ++ "md5sum fallo para " ++ path (file "/w/r/src/b.c") ++ " :"
             ++ nl ++ denied ++ nl).
Proof.
  apply (@generate_failure_is_logged World host "/w/r" ""
           (start (disk [(md5_a, 0); (denied, 256); (md5_z, 0)]))
           (put "/w/r/hashes.md5" ""
              (disk [(md5_a, 0); (denied, 256); (md5_z, 0)]))
           before_b (file "/w/r/src/b.c") [file "/w/r/z.txt"] false
           [mkEntry "0cc175b9c0f1b6a831c399e269772661" "./a.txt"] ""
           {| world := put "/w/r/hashes.md5" ""
                         (disk [(denied, 256); (md5_z, 0)]);
              trace := [Exec (md5sum_command "/w/r/a.txt")] |}
           256 denied
           {| world := put "/w/r/hashes.md5" "" (disk [(md5_z, 0)]);
              trace := [Exec (md5sum_command "/w/r/a.txt");
                        Exec (md5sum_command "/w/r/src/b.c")] |});
    try reflexivity.
  discriminate.
Defined.
